(** * JbdBms: the transaction engine of the JBD battery-management driver

    A shallow embedding of [src/jbdbms.cpp] and the properties its
    specification states about it.

    Conventions of the embedding:
    - a [uint8_t], [uint16_t] or [uint32_t] value is a [Z]; every place where
      the C++ code relies on unsigned wrap-around applies [wrap8], [wrap16]
      or [wrap32] explicitly;
    - a pointer to [uint8_t] is an [option (list Z)]: [None] is the null pointer and
      [Some m] the bytes stored from the pointed address on;
    - the blocking collaborators (serial stream, direction pin, millisecond
      clock, frame observer) are a [World] threaded through a small monad
      that also collects the calls made, in order. *)

From Stdlib Require Import ZArith List Bool Lia Ascii String Permutation.
Import ListNotations.
Local Open Scope Z_scope.

(** ** Machine integers *)

Definition wrap8 (x : Z) : Z := x mod 256.
Definition wrap16 (x : Z) : Z := x mod 65536.
Definition wrap32 (x : Z) : Z := x mod 4294967296.

Definition is_byte (x : Z) : Prop := 0 <= x < 256.
Definition is_u16 (x : Z) : Prop := 0 <= x < 65536.
Definition is_i16 (x : Z) : Prop := -32768 <= x < 32768.

(** Modelled from the spec: [swap], the helper of [jbdbms.h] (the header is
    not among the sources) that exchanges the two bytes of a 16-bit object in
    place and returns the new value; section 4.1 calls it the byte-swap of
    the 16-bit result. *)
Definition swap (v : Z) : Z :=
  Z.lor (Z.shiftl (Z.land v 255) 8) (Z.land (Z.shiftr v 8) 255).

(** ** Pointers to bytes *)

Definition ptr := option (list Z).

(** Whether a pointer is non-null, as in [len == 0 || data]. *)
Definition non_null (p : ptr) : bool :=
  match p with Some _ => true | None => false end.

(** The bytes behind a pointer.  Reading through the null pointer is
    undefined in C; the model has no bytes behind it.  [genCrc] and the
    writes of [execute] never read through a null pointer; the copy made
    for the observer does, when a payload is declared and [result] is null:
    statements about such runs carry [observer_in_bounds]. *)
Definition deref (p : ptr) : list Z :=
  match p with Some m => m | None => [] end.

(** [n] bytes read from the start of [m].  Reading past the bytes of a
    buffer is undefined in C; the model reads such a byte as 0, and the
    statements keep the reads within the buffer. *)
Fixpoint read_mem (n : nat) (m : list Z) : list Z :=
  match n with
  | O => []
  | S k => hd 0 m :: read_mem k (tl m)
  end.

(** [got] stored at the start of [m]: the first bytes are replaced, the
    others stay. *)
Definition overwrite {A} (got m : list A) : list A :=
  got ++ skipn (List.length got) m.

(** The in-memory image of a [uint16_t] on the little-endian hosts the
    library targets: the low byte is first, so writing the object [crc]
    byte by byte puts its low byte on the wire first. *)
Definition u16_bytes (v : Z) : list Z := [Z.land v 255; Z.land (Z.shiftr v 8) 255].

Definition u16_of_bytes (bs : list Z) : Z :=
  match bs with
  | lo :: hi :: _ => Z.lor lo (Z.shiftl hi 8)
  | _ => 0
  end.

(** ** Frame headers *)

(** Modelled from the spec: [request_header_t] of [jbdbms.h].  Section 6 gives
    the request as start marker, opcode, register, length; the code
    initialises the four fields in that order and seeds the request checksum
    with [command]. *)
Record request_header_t := mkRequest {
  start : Z;
  command : Z;
  code : Z;
  length : Z
}.

(** Modelled from the spec: [response_header_t] of [jbdbms.h].  Section 6
    gives the response header as start marker, status, length. *)
Record response_header_t := mkResponse {
  rsp_start : Z;
  returncode : Z;
  rsp_length : Z
}.

Definition request_bytes (h : request_header_t) : list Z :=
  [start h; command h; code h; length h].

Definition sizeof_request_header : nat := 4.

Definition response_bytes (h : response_header_t) : list Z :=
  [rsp_start h; returncode h; rsp_length h].

Definition response_of_bytes (bs : list Z) : response_header_t :=
  mkResponse (nth 0 bs 0) (nth 1 bs 0) (nth 2 bs 0).

Definition sizeof_response_header : nat := 3.

(** ** Checksum (private methods) *)

(** The loop [while( len-- ) crc -= *(data++);] on a [uint16_t] accumulator. *)
Fixpoint crc_loop (len : nat) (data : list Z) (crc : Z) : Z :=
  match len with
  | O => crc
  | S k => crc_loop k (tl data) (wrap16 (crc - hd 0 data))
  end.

Definition genCrc (byte len : Z) (data : ptr) : Z :=
  let crc := 0 in
  let crc :=
    if (len <? 31) && ((len =? 0) || non_null data) then
      let crc := wrap16 (crc - byte) in
      let crc := wrap16 (crc - len) in
      crc_loop (Z.to_nat len) (deref data) crc
    else crc in
  swap crc.

Definition genRequestCrc (header : request_header_t) (data : ptr) : Z :=
  genCrc (command header) (length header) data.

Definition genResponseCrc (header : response_header_t) (data : ptr) : Z :=
  genCrc (returncode header) (rsp_length header) data.

Definition isValid (header : response_header_t) (data : ptr) (crc : Z) : bool :=
  genResponseCrc header data =? crc.

(** [prepareCmd] sets the start marker of the caller's header and the
    caller's [crc]; the result is [(return value, header, crc)]. *)
Definition prepareCmd (header : request_header_t) (data : ptr)
  : bool * request_header_t * Z :=
  let header := mkRequest 221 (command header) (code header) (length header) in
  let crc := genRequestCrc header data in
  (negb (crc =? 0), header, crc).

(** ** The collaborators

    The serial stream, the pin, the clock and the observer are outside the
    library; the model keeps what a transaction can observe of them. *)

Record World := mkWorld {
  clock : Z;        (* what [millis()] returns now *)
  prev_cell : Z;    (* the [uint32_t] that [_prev] points to *)
  rx : list Z;      (* the bytes the stream still yields to [readBytes] *)
  tx_room : nat     (* how many more bytes [write] accepts *)
}.

(** The calls a transaction makes on its collaborators. *)
Inductive event :=
| Delay (ms : Z)
| DigitalWrite (pin : Z) (high : bool)
| Flush
| Write (bytes : list Z) (count : nat)
| ReadBytes (want : nat) (got : list Z)
| SerialCb (frame : list Z).

(** A computation reads and updates the world and says which calls it made. *)
Definition M (A : Type) : Type := World -> A * World * list event.

Definition ret {A} (a : A) : M A := fun w => (a, w, []).

Definition bind {A B} (m : M A) (k : A -> M B) : M B :=
  fun w =>
    let '(a, w1, e1) := m w in
    let '(b, w2, e2) := k a w1 in
    (b, w2, e1 ++ e2).

Declare Scope jbd_scope.
Delimit Scope jbd_scope with jbd.
Notation "x <- m ;; k" := (bind m (fun x => k))
  (at level 61, m at next level, right associativity) : jbd_scope.
Notation "' p <- m ;; k" := (bind m (fun x => match x with p => k end))
  (at level 61, p pattern, m at next level, right associativity) : jbd_scope.
Notation "m ;; k" := (bind m (fun _ => k))
  (at level 61, right associativity) : jbd_scope.
Local Open Scope jbd_scope.

Definition value {A} (r : A * World * list event) : A := fst (fst r).
Definition world {A} (r : A * World * list event) : World := snd (fst r).
Definition events {A} (r : A * World * list event) : list event := snd r.

Definition millis : M Z := fun w => (clock w, w, []).

(** [delay(ms)] blocks for [ms] milliseconds.  It is the only call that
    moves the clock of the model; the time the stream takes is the caller's
    to add with [idle]. *)
Definition delay (ms : Z) : M unit :=
  fun w => (tt, mkWorld (wrap32 (clock w + ms)) (prev_cell w) (rx w) (tx_room w),
            [Delay ms]).

Definition digitalWrite (pin : Z) (high : bool) : M unit :=
  fun w => (tt, w, [DigitalWrite pin high]).

Definition serial_flush : M unit := fun w => (tt, w, [Flush]).

(** [_serial.write(buffer, size)]: the count of bytes accepted. *)
Definition serial_write (bytes : list Z) : M nat :=
  fun w =>
    let n := Nat.min (List.length bytes) (tx_room w) in
    (n, mkWorld (clock w) (prev_cell w) (rx w) (tx_room w - n), [Write bytes n]).

(** [_serial.readBytes(buffer, length)]: the bytes that arrived, at most
    [length] of them; fewer when the stream runs dry. *)
Definition serial_readBytes (n : nat) : M (list Z) :=
  fun w =>
    let got := firstn n (rx w) in
    (got, mkWorld (clock w) (prev_cell w) (skipn n (rx w)) (tx_room w),
     [ReadBytes n got]).

Definition load_prev : M Z := fun w => (prev_cell w, w, []).

Definition store_prev (t : Z) : M unit :=
  fun w => (tt, mkWorld (clock w) t (rx w) (tx_room w), []).

Definition serial_cb (frame : list Z) : M unit := fun w => (tt, w, [SerialCb frame]).

(** Time that passes between two calls of the library. *)
Definition idle (ms : Z) (w : World) : World :=
  mkWorld (wrap32 (clock w + ms)) (prev_cell w) (rx w) (tx_room w).

(** ** The object *)

Record JbdBms := mkJbdBms {
  _delay : Z;          (* [uint8_t command_delay_ms] *)
  _dir_pin : Z;        (* negative: no direction pin *)
  _serial_cb : bool    (* whether an observer is set *)
}.

(** ** execute *)

(** The local objects the receiving half of [execute] reads into. *)
Record locals := mkLocals {
  l_header : response_header_t;
  l_result : ptr;
  l_crc : Z;
  l_stop : Z
}.

(** [a && b] on computations: [b] runs only when [a] gave [true]. *)
Definition and_then {S} (a b : S -> M (bool * S)) : S -> M (bool * S) :=
  fun s => '(ok, s) <- a s ;; if (ok : bool) then b s else ret (false, s).

Notation "a &&& b" := (and_then a b) (at level 40, left associativity) : jbd_scope.

Definition check {S} (f : S -> bool) : S -> M (bool * S) :=
  fun s => ret (f s, s).

Definition write_all (bytes : list Z) (size : Z) : unit -> M (bool * unit) :=
  fun s => n <- serial_write bytes ;; ret (Z.of_nat n =? size, s).

Definition read_header : locals -> M (bool * locals) :=
  fun l =>
    got <- serial_readBytes sizeof_response_header ;;
    let h := response_of_bytes (overwrite got (response_bytes (l_header l))) in
    ret (Z.of_nat (List.length got) =? Z.of_nat sizeof_response_header,
         mkLocals h (l_result l) (l_crc l) (l_stop l)).

Definition read_payload : locals -> M (bool * locals) :=
  fun l =>
    if rsp_length (l_header l) =? 0 then ret (true, l)
    else
      match l_result l with
      | None => ret (false, l)
      | Some m =>
          got <- serial_readBytes (Z.to_nat (rsp_length (l_header l))) ;;
          ret (Z.of_nat (List.length got) =? rsp_length (l_header l),
               mkLocals (l_header l) (Some (overwrite got m)) (l_crc l) (l_stop l))
      end.

Definition read_crc : locals -> M (bool * locals) :=
  fun l =>
    got <- serial_readBytes 2 ;;
    ret (Z.of_nat (List.length got) =? 2,
         mkLocals (l_header l) (l_result l)
                  (u16_of_bytes (overwrite got (u16_bytes (l_crc l)))) (l_stop l)).

Definition read_stop : locals -> M (bool * locals) :=
  fun l =>
    got <- serial_readBytes 1 ;;
    ret (Z.of_nat (List.length got) =? 1,
         mkLocals (l_header l) (l_result l) (l_crc l) (hd (l_stop l) got)).

(** The bytes handed to the observer (lines 77 to 82): header, [length]
    bytes copied from [result], crc and stop as they stand after the reads.
    The copy is made whatever the reads did; it is defined in C only when
    [result] has the declared number of bytes, or none is declared, which is
    what [observer_in_bounds] says of a call. *)
Definition complete_serial_data (l : locals) : list Z :=
  response_bytes (l_header l)
  ++ read_mem (Z.to_nat (rsp_length (l_header l))) (deref (l_result l))
  ++ u16_bytes (l_crc l)
  ++ [l_stop l].

(** Lines 68 to 74: the conjunction assigned to [rc]. *)
Definition read_response : locals -> M (bool * locals) :=
  read_header
  &&& check (fun l => (rsp_start (l_header l) =? 221)
                      && (rsp_length (l_header l) <=? 64))
  &&& read_payload
  &&& read_crc
  &&& read_stop
  &&& check (fun l => isValid (l_header l) (l_result l) (l_crc l))
  &&& check (fun l => returncode (l_header l) =? 0).

(** Lines 66 to 85: the response is read and checked, and shown to the
    observer when there is one. *)
Definition receive (self : JbdBms) (result : ptr) (crc : Z) (stop : Z)
  : M (bool * ptr) :=
  '(rc, l) <- read_response (mkLocals (mkResponse 0 0 0) result crc stop) ;;
  (if _serial_cb self then serial_cb (complete_serial_data l) else ret tt) ;;
  ret (rc, l_result l).

(** Lines 46 to 49: the pacing of commands, in [uint32_t] arithmetic. *)
Definition pace (self : JbdBms) : M unit :=
  now <- millis ;;
  prev <- load_prev ;;
  let remaining := wrap32 (_delay self - wrap32 (now - prev)) in
  if remaining <=? _delay self then delay remaining else ret tt.

(** Lines 51 to 64: the request goes out, between the two settings of the
    direction pin. *)
Definition transmit (self : JbdBms) (header : request_header_t)
    (command : ptr) (crc stop : Z) : M bool :=
  (if 0 <=? _dir_pin self then digitalWrite (_dir_pin self) true else ret tt) ;;
  serial_flush ;;
  '(rc, _) <-
    (write_all (request_bytes header) (Z.of_nat sizeof_request_header)
     &&& write_all (read_mem (Z.to_nat (length header)) (deref command))
                   (length header)
     &&& write_all (u16_bytes crc) 2
     &&& write_all [stop] 1) tt ;;
  serial_flush ;;
  (if 0 <=? _dir_pin self then digitalWrite (_dir_pin self) false else ret tt) ;;
  ret rc.

(** [execute(header, command, result)]: the return value and what [result]
    points to afterwards. *)
Definition execute (self : JbdBms) (header : request_header_t)
    (command result : ptr) : M (bool * ptr) :=
  let stop := 119 in
  let '(ok, header, crc) := prepareCmd header command in
  if negb ok then ret (false, result)
  else
    pace self ;;
    rc <- transmit self header command crc stop ;;
    '(rc, result) <-
      (if (rc : bool) then receive self result crc stop else ret (false, result)) ;;
    now <- millis ;;
    store_prev now ;;
    ret (rc, result).

(** What a trace shows: the milliseconds slept, the buffers offered to
    [write], and whether the stream or the pin was used at all. *)
Fixpoint slept (evs : list event) : Z :=
  match evs with
  | [] => 0
  | Delay ms :: rest => ms + slept rest
  | _ :: rest => slept rest
  end.

Fixpoint writes (evs : list event) : list (list Z) :=
  match evs with
  | [] => []
  | Write bytes _ :: rest => bytes :: writes rest
  | _ :: rest => writes rest
  end.

(** ** The records of the public operations *)

(** Modelled from the spec: [Status_t] of [jbdbms.h], as section 3 lists its
    fields: nine 16-bit fields in wire order, the cell count, and the other
    single-byte fields, which nothing converts.  [current] is an [int16_t]
    and holds a signed value; the other 16-bit fields are unsigned. *)
Record Status_t := mkStatus {
  voltage : Z;
  current : Z;
  remainingCapacity : Z;
  nominalCapacity : Z;
  cycles : Z;
  productionDate : Z;
  balanceLow : Z;
  balanceHigh : Z;
  fault : Z;
  cells : Z;
  other : list Z
}.

(** The bytes of a [Status_t] object, which [execute] fills through a
    pointer to its first byte. *)
Definition Status_image (d : Status_t) : list Z :=
  u16_bytes (voltage d) ++ u16_bytes (current d)
  ++ u16_bytes (remainingCapacity d) ++ u16_bytes (nominalCapacity d)
  ++ u16_bytes (cycles d) ++ u16_bytes (productionDate d)
  ++ u16_bytes (balanceLow d) ++ u16_bytes (balanceHigh d)
  ++ u16_bytes (fault d) ++ cells d :: other d.

(** The value of an [int16_t] whose 16 bits are [u]. *)
Definition signed16 (u : Z) : Z :=
  if u <? 32768 then u else u - 65536.

Definition Status_of_image (bs : list Z) : Status_t :=
  let f (i : nat) := u16_of_bytes (skipn i bs) in
  mkStatus (f 0%nat) (signed16 (f 2%nat)) (f 4%nat) (f 6%nat) (f 8%nat) (f 10%nat)
           (f 12%nat) (f 14%nat) (f 16%nat) (nth 18 bs 0) (skipn 19 bs).

(** Modelled from the spec: [Cells_t] of [jbdbms.h], the array of per-cell
    voltages; its fixed size is the length of the list. *)
Record Cells_t := mkCells {
  voltages : list Z
}.

Definition Cells_image (d : Cells_t) : list Z :=
  flat_map u16_bytes (voltages d).

Fixpoint u16s_of_bytes (n : nat) (bs : list Z) : list Z :=
  match n with
  | O => []
  | S k => u16_of_bytes bs :: u16s_of_bytes k (skipn 2 bs)
  end.

Definition Cells_of_image (n : nat) (bs : list Z) : Cells_t :=
  mkCells (u16s_of_bytes n bs).

(** Modelled from the spec: [Hardware_t] of [jbdbms.h], a block of bytes
    that needs no conversion. *)
Definition Hardware_t := list Z.

(** What is left in an object of [size] bytes after [execute] wrote through
    the pointer [p] to it. *)
Definition object_bytes (size : nat) (p : ptr) : list Z :=
  firstn size (deref p).

(** ** Public operations *)

Section Operations.

(** The constants of [jbdbms.h], which is not among the sources: the two
    opcodes, the registers and the mask of the MOSFET bits. *)
Variables READ WRITE STATUS CELLS HARDWARE MOSFET MOSFET_BOTH : Z.

Variable self : JbdBms.

Definition getStatus (data : Status_t) : M (bool * Status_t) :=
  let header := mkRequest 0 READ STATUS 0 in
  let image := Status_image data in
  '(rc, p) <- execute self header None (Some image) ;;
  let data := Status_of_image (object_bytes (List.length image) p) in
  let data :=
    mkStatus (swap (voltage data)) (signed16 (swap (current data)))
             (swap (remainingCapacity data)) (swap (nominalCapacity data))
             (swap (cycles data)) (swap (productionDate data))
             (swap (balanceLow data)) (swap (balanceHigh data))
             (swap (fault data)) (cells data) (other data) in
  ret (rc, data).

Definition getCells (data : Cells_t) : M (bool * Cells_t) :=
  let header := mkRequest 0 READ CELLS 0 in
  let image := Cells_image data in
  '(rc, p) <- execute self header None (Some image) ;;
  let data :=
    Cells_of_image (List.length (voltages data))
                   (object_bytes (List.length image) p) in
  let data := mkCells (map swap (voltages data)) in
  ret (rc, data).

Definition getHardware (data : Hardware_t) : M (bool * Hardware_t) :=
  let header := mkRequest 0 READ HARDWARE 0 in
  '(rc, p) <- execute self header None (Some data) ;;
  ret (rc, object_bytes (List.length data) p).

(** [status] is the value of the [mosfet_t] enumerator, promoted to [int]
    by [~]; the result is stored in a [uint8_t]. *)
Definition setMosfetStatus (status : Z) : M bool :=
  let header := mkRequest 0 WRITE MOSFET 2 in
  let status_inv := wrap8 (Z.land (Z.lnot status) MOSFET_BOTH) in
  let mosfetStatus := [0; status_inv] in
  '(rc, _) <- execute self header (Some mosfetStatus) None ;;
  ret rc.

End Operations.

(** ** balance *)

Definition sizeof_balanceStr : Z := 33.

Definition NUL : ascii := Ascii.zero.

(** The characters the loop of [balance] stores, first one first. *)
Fixpoint balance_loop (cell : nat) (balanceBits : Z) : list ascii :=
  match cell with
  | O => []
  | S k =>
      (if negb (Z.land balanceBits 1 =? 0) then "1"%char else "0"%char)
      :: balance_loop k (Z.shiftr balanceBits 1)
  end.

(** [balance(data)] writes into the static [balanceStr] and returns a
    pointer to it: the model takes the buffer as the last call left it and
    gives its new contents. *)
Definition balance (balanceStr : list ascii) (data : Status_t) : list ascii :=
  let balanceBits :=
    Z.lor (wrap32 (Z.shiftl (balanceHigh data) 16)) (balanceLow data) in
  let cell :=
    if cells data <? sizeof_balanceStr then cells data
    else sizeof_balanceStr - 1 in
  overwrite (balance_loop (Z.to_nat cell) balanceBits ++ [NUL]) balanceStr.

(** The C string that starts at the first character of a buffer. *)
Fixpoint c_str (buf : list ascii) : String.string :=
  match buf with
  | [] => String.EmptyString
  | c :: rest =>
      if Ascii.eqb c NUL then String.EmptyString
      else String.String c (c_str rest)
  end.

(** ** Vocabulary of the statements *)

(** The sum of the bytes of a payload. *)
Definition sum (payload : list Z) : Z := fold_right Z.add 0 payload.

(** A pointer holds a payload when the payload's bytes are the first bytes
    behind it; the null pointer holds the empty payload only. *)
Definition holds (p : ptr) (payload : list Z) : Prop :=
  match p with
  | Some m => exists rest, m = payload ++ rest
  | None => payload = []
  end.

(** A step that only reads from the stream. *)
Definition reader (a : locals -> M (bool * locals)) : Prop :=
  forall l w,
    clock (world (a l w)) = clock w
    /\ prev_cell (world (a l w)) = prev_cell w
    /\ tx_room (world (a l w)) = tx_room w
    /\ slept (events (a l w)) = 0
    /\ writes (events (a l w)) = [].

(** A prefix of the conjunction that, when it holds, has taken [k n] bytes
    from the stream, [n] being the declared length, which is the third byte. *)
Definition consumes (a : locals -> M (bool * locals)) (k : Z -> nat) : Prop :=
  forall l w,
    fst (value (a l w)) = true ->
    rsp_length (l_header (snd (value (a l w)))) = nth 2 (rx w) 0
    /\ (List.length (rx (world (a l w))) + k (nth 2 (rx w) 0%Z)
        = List.length (rx w))%nat.

(** A later conjunct that, when it holds, has taken [j n] bytes and left the
    header alone. *)
Definition takes (b : locals -> M (bool * locals)) (j : Z -> nat) : Prop :=
  forall l w,
    fst (value (b l w)) = true ->
    l_header (snd (value (b l w))) = l_header l
    /\ (List.length (rx (world (b l w))) + j (rsp_length (l_header l))
        = List.length (rx w))%nat.

(** The stream runs dry before the frame its header declares is complete:
    fewer bytes than header, declared payload, checksum and stop marker. *)
Definition short_read (rx : list Z) : bool :=
  (List.length rx <? 3 + Z.to_nat (nth 2 rx 0%Z) + 3)%nat.

(** A request encodes when [prepareCmd] returns [true]. *)
Definition encodes (header : request_header_t) (data : ptr) : Prop :=
  fst (fst (prepareCmd header data)) = true.

(** The claim C3 as the specification words it: whatever the call, the cell
    behind [_prev] holds the current time afterwards. *)
Definition timestamp_updated (self : JbdBms) (header : request_header_t)
    (cmd result : ptr) (w : World) : Prop :=
  prev_cell (world (execute self header cmd result w))
  = clock (world (execute self header cmd result w)).

(** The bitmap [balance] walks through. *)
Definition balance_bits (data : Status_t) : Z :=
  Z.lor (wrap32 (Z.shiftl (balanceHigh data) 16)) (balanceLow data).

Definition is_bit_char (c : ascii) : Prop := c = "0"%char \/ c = "1"%char.

(** The nine 16-bit fields of a status record, each byte-swapped: wire order
    to host order.  [current] is swapped through a pointer to [uint16_t]
    and read back as the [int16_t] it is. *)
Definition host_order (d : Status_t) : Status_t :=
  mkStatus (swap (voltage d)) (signed16 (swap (current d)))
           (swap (remainingCapacity d)) (swap (nominalCapacity d))
           (swap (cycles d)) (swap (productionDate d))
           (swap (balanceLow d)) (swap (balanceHigh d))
           (swap (fault d)) (cells d) (other d).

Section Records.

Variables READ STATUS CELLS : Z.
Variable self : JbdBms.

(** The status record as the transaction of [getStatus] leaves it, before
    any conversion. *)
Definition status_left_by_execute (data : Status_t) (w : World) : Status_t :=
  Status_of_image
    (object_bytes (List.length (Status_image data))
       (snd (value (execute self (mkRequest 0 READ STATUS 0) None
                      (Some (Status_image data)) w)))).

Definition cells_left_by_execute (data : Cells_t) (w : World) : Cells_t :=
  Cells_of_image (List.length (voltages data))
    (object_bytes (List.length (Cells_image data))
       (snd (value (execute self (mkRequest 0 READ CELLS 0) None
                      (Some (Cells_image data)) w)))).

(** The claim C4 as the specification words it: on a short read the
    operation fails and the record is not converted. *)
Definition fails_without_decoding (data : Status_t) (w : World) : Prop :=
  fst (value (getStatus READ STATUS self data w)) = false
  /\ snd (value (getStatus READ STATUS self data w))
     = status_left_by_execute data w.

End Records.

(** ** Vocabulary of the further properties *)

(** [begin(dir_pin)] and [setSerialCb(serial_cb)] (lines 26 to 36).  The
    calls [begin] makes on the pin are its second result; [serial_cb] says
    whether the pointer passed is non-null. *)
Inductive pin_call :=
| PinModeOutput (pin : Z)
| PinWrite (pin : Z) (high : bool).

Definition setSerialCb (self : JbdBms) (serial_cb : bool) : JbdBms :=
  mkJbdBms (_delay self) (_dir_pin self) serial_cb.

Definition begin (self : JbdBms) (dir_pin : Z) : JbdBms * list pin_call :=
  let self := mkJbdBms (_delay self) dir_pin (_serial_cb self) in
  if 0 <=? _dir_pin self
  then (self, [PinModeOutput (_dir_pin self); PinWrite (_dir_pin self) false])
  else (self, []).

(** More of what a trace shows: the levels written to pins, the bytes each
    read returned, the frames shown to the observer. *)
Fixpoint pin_writes (evs : list event) : list (Z * bool) :=
  match evs with
  | [] => []
  | DigitalWrite pin high :: rest => (pin, high) :: pin_writes rest
  | _ :: rest => pin_writes rest
  end.

Fixpoint reads (evs : list event) : list (list Z) :=
  match evs with
  | [] => []
  | ReadBytes _ got :: rest => got :: reads rest
  | _ :: rest => reads rest
  end.

Fixpoint callbacks (evs : list event) : list (list Z) :=
  match evs with
  | [] => []
  | SerialCb frame :: rest => frame :: callbacks rest
  | _ :: rest => callbacks rest
  end.

Definition is_write (e : event) : bool :=
  match e with Write _ _ => true | _ => false end.

Definition is_read (e : event) : bool :=
  match e with ReadBytes _ _ => true | _ => false end.

(** The events of setting the direction pin, when there is one. *)
Definition pin_events (self : JbdBms) (high : bool) : list event :=
  if 0 <=? _dir_pin self then [DigitalWrite (_dir_pin self) high] else [].

(** The accumulator of the checksum, before the swap. *)
Definition accumulator (byte len : Z) (payload : list Z) : Z :=
  wrap16 (0 - byte - len - sum payload).

(** A 16-bit field as the wire has it: high byte first. *)
Definition be16 (p : list Z) (i : nat) : Z :=
  256 * nth i p 0 + nth (S i) p 0.

(** What [result] points to once [payload] has been read into it; an empty
    payload is not read at all. *)
Definition store_payload (result : ptr) (payload : list Z) : ptr :=
  match payload, result with
  | _ :: _, Some m => Some (overwrite payload m)
  | _, _ => result
  end.

(** The calls that send a request the stream takes whole. *)
Definition request_events (self : JbdBms) (h : request_header_t)
    (cmd : ptr) : list event :=
  pin_events self true
  ++ [Flush;
      Write [221; command h; code h; length h] 4;
      Write (read_mem (Z.to_nat (length h)) (deref cmd)) (Z.to_nat (length h));
      Write (u16_bytes (genCrc (command h) (length h) cmd)) 2;
      Write [119] 1;
      Flush]
  ++ pin_events self false.

(** The reads that take a complete frame from the stream. *)
Definition frame_reads (s rcode n : Z) (payload : list Z) (c0 c1 stopb : Z)
  : list event :=
  ReadBytes 3 [s; rcode; n]
  :: (if n =? 0 then [] else [ReadBytes (Z.to_nat n) payload])
  ++ [ReadBytes 2 [c0; c1]; ReadBytes 1 [stopb]].

(** The observer's share of a trace. *)
Definition observer_events (self : JbdBms) (l : locals) : list event :=
  if _serial_cb self then [SerialCb (complete_serial_data l)] else [].

(** A step whose calls are all reads. *)
Definition only_reads (a : locals -> M (bool * locals)) : Prop :=
  forall l w, forallb is_read (events (a l w)) = true.

(** The 16-bit values of a payload, each with its high byte first. *)
Fixpoint be16_list (p : list Z) : list Z :=
  match p with
  | hi :: lo :: rest => (256 * hi + lo) :: be16_list rest
  | _ => []
  end.

(** A step that leaves [result] and what it points to alone. *)
Definition keeps_result (b : locals -> M (bool * locals)) : Prop :=
  forall l w, l_result (snd (value (b l w))) = l_result l.

(** What can have become of a buffer: nothing, or at most 64 bytes stored at
    its start. *)
Definition stored_at_most_64 (before after : ptr) : Prop :=
  after = before
  \/ exists m got,
       before = Some m /\ after = Some (overwrite got m)
       /\ (List.length got <= 64)%nat.

(** A step that leaves the header alone. *)
Definition keeps_header (b : locals -> M (bool * locals)) : Prop :=
  forall l w, l_header (snd (value (b l w))) = l_header l.

(** ** Defined behaviour of the observer's copy *)

(** Line 79 copies [header.length] bytes from [result] for the observer,
    whatever the reads did; that length is the third byte the stream
    yields, or 0 when it yields fewer than three.  The copy stays within
    what [result] points to when no observer is set, or no byte is copied,
    or [result] points to at least that many bytes.  On any other call the
    source reads through a null pointer or past the caller's buffer, which
    is undefined in C: the statements about what a transaction does after
    its reads are about calls with [observer_in_bounds]. *)
Definition observer_in_bounds (self : JbdBms) (result : ptr) (rx : list Z)
  : bool :=
  negb (_serial_cb self)
  || (nth 2 rx 0 =? 0)
  || match result with
     | Some m => (Z.to_nat (nth 2 rx 0%Z) <=? List.length m)%nat
     | None => false
     end.

(** ** The checksum as section 4.1 words it *)

(** Section 4.1, the algorithm: start at 0; subtract the seed byte; subtract
    the length; subtract each payload byte in order, in a 16-bit accumulator
    with wrap-around; byte-swap the result.  This definition follows the
    words of the specification, not [genCrc]; the two are compared below. *)
Definition checksum_4_1 (seedByte len : Z) (payload : list Z) : Z :=
  let acc := 0 in
  let acc := wrap16 (acc - seedByte) in
  let acc := wrap16 (acc - len) in
  let acc := fold_left (fun acc b => wrap16 (acc - b)) payload acc in
  swap acc.

(** The claim C2 as the specification words it: the conditions under which
    a complete response is accepted, the checksum being that of section
    4.1 over status byte, declared length and payload. *)
Definition accepted_as_specified (s rcode n : Z) (payload : list Z)
    (c0 c1 : Z) : Prop :=
  s = 221
  /\ n <= 64
  /\ u16_of_bytes [c0; c1] = checksum_4_1 rcode n payload
  /\ rcode = 0.

(** The claim C7 as the specification words it: the request is encoded, and
    the checksum the encoding stores is accepted by [isValid] over the same
    seed byte, length and payload. *)
Definition round_trip_verifies (header : request_header_t) (data data' : ptr)
  : Prop :=
  let '(ok, _, crc) := prepareCmd header data in
  ok = true
  /\ isValid (mkResponse 221 (command header) (length header)) data' crc = true.

(** * Properties *)

(** ** Machine integers and [swap] *)

Lemma land_255 (v : Z) : Z.land v 255 = v mod 256.
Proof. change 255 with (Z.ones 8). now rewrite Z.land_ones. Qed.

Lemma shiftr_8 (v : Z) : Z.shiftr v 8 = v / 256.
Proof. now rewrite Z.shiftr_div_pow2. Qed.

Lemma shiftl_8 (v : Z) : Z.shiftl v 8 = v * 256.
Proof. now rewrite Z.shiftl_mul_pow2. Qed.

Lemma land_high_low (a b : Z) : Z.land (Z.shiftl a 8) (Z.land b 255) = 0.
Proof.
  apply Z.bits_inj'; intros n Hn.
  rewrite Z.bits_0, !Z.land_spec.
  destruct (Z_lt_le_dec n 8) as [Hlt | Hge].
  - rewrite Z.shiftl_spec_low by assumption. reflexivity.
  - change 255 with (Z.ones 8).
    rewrite (Z.ones_spec_high 8 n) by lia.
    now rewrite !andb_false_r.
Qed.

(** [swap] in arithmetic: the low byte becomes the high one. *)
Lemma swap_arith (v : Z) : swap v = (v mod 256) * 256 + (v / 256) mod 256.
Proof.
  unfold swap.
  pose proof (Z.add_lor_land (Z.shiftl (Z.land v 255) 8)
                             (Z.land (Z.shiftr v 8) 255)) as H.
  rewrite land_high_low in H.
  rewrite Z.add_0_r in H. rewrite H.
  now rewrite !land_255, shiftl_8, shiftr_8.
Qed.

Lemma swap_u16 (v : Z) : is_u16 (swap v).
Proof.
  unfold is_u16. rewrite swap_arith.
  pose proof (Z.mod_pos_bound v 256 ltac:(lia)).
  pose proof (Z.mod_pos_bound (v / 256) 256 ltac:(lia)).
  lia.
Qed.

Lemma swap_zero (v : Z) : is_u16 v -> swap v = 0 -> v = 0.
Proof.
  unfold is_u16. rewrite swap_arith. intros Hv H.
  pose proof (Z.mod_pos_bound v 256 ltac:(lia)).
  pose proof (Z.mod_pos_bound (v / 256) 256 ltac:(lia)).
  pose proof (Z.div_mod v 256 ltac:(lia)).
  assert (v / 256 < 256) by (apply Z.div_lt_upper_bound; lia).
  assert (0 <= v / 256) by (apply Z.div_pos; lia).
  rewrite (Z.mod_small (v / 256)) in * by lia.
  lia.
Qed.

Lemma swap_involutive (v : Z) : is_u16 v -> swap (swap v) = v.
Proof.
  unfold is_u16. intros Hv. rewrite (swap_arith (swap v)), swap_arith.
  pose proof (Z.mod_pos_bound v 256 ltac:(lia)).
  pose proof (Z.div_mod v 256 ltac:(lia)).
  assert (v / 256 < 256) by (apply Z.div_lt_upper_bound; lia).
  assert (0 <= v / 256) by (apply Z.div_pos; lia).
  rewrite (Z.mod_small (v / 256)) by lia.
  replace ((v mod 256 * 256 + v / 256) mod 256) with (v / 256)
    by (rewrite Z.add_comm, Z.mod_add by lia; now rewrite Z.mod_small by lia).
  replace ((v mod 256 * 256 + v / 256) / 256) with (v mod 256)
    by (rewrite Z.add_comm, Z.div_add by lia; rewrite (Z.div_small (v / 256)) by lia; lia).
  rewrite (Z.mod_small (v mod 256)) by lia. lia.
Qed.

Lemma wrap16_u16 (x : Z) : is_u16 (wrap16 x).
Proof. unfold is_u16, wrap16. apply Z.mod_pos_bound. lia. Qed.

Lemma wrap16_sub_l (x y : Z) : wrap16 (wrap16 x - y) = wrap16 (x - y).
Proof. unfold wrap16. apply Zminus_mod_idemp_l. Qed.

(** The image of a 16-bit value reads back as the value. *)
Lemma u16_roundtrip (v : Z) (rest : list Z) :
  is_u16 v -> u16_of_bytes (u16_bytes v ++ rest) = v.
Proof.
  unfold is_u16. intros Hv. unfold u16_bytes. cbn [app u16_of_bytes].
  pose proof (Z.add_lor_land (Z.land v 255)
                (Z.shiftl (Z.land (Z.shiftr v 8) 255) 8)) as H.
  rewrite (Z.land_comm (Z.land v 255)), land_high_low, Z.add_0_r in H.
  rewrite H, !land_255, shiftl_8, shiftr_8.
  pose proof (Z.div_mod v 256 ltac:(lia)).
  assert (v / 256 < 256) by (apply Z.div_lt_upper_bound; lia).
  assert (0 <= v / 256) by (apply Z.div_pos; lia).
  rewrite (Z.mod_small (v / 256)) by lia. lia.
Qed.

(** The image of a 16-bit object, signed or not, reads back as its 16
    bits. *)
Lemma u16_image_bits (v : Z) (rest : list Z) :
  u16_of_bytes (u16_bytes v ++ rest) = v mod 65536.
Proof.
  unfold u16_bytes. cbn [app u16_of_bytes].
  pose proof (Z.add_lor_land (Z.land v 255)
                (Z.shiftl (Z.land (Z.shiftr v 8) 255) 8)) as H.
  rewrite (Z.land_comm (Z.land v 255)), land_high_low, Z.add_0_r in H.
  rewrite H, !land_255, shiftl_8, shiftr_8.
  change 65536 with (256 * 256).
  rewrite Z.rem_mul_r by lia. lia.
Qed.

Lemma signed16_bits (v : Z) : is_i16 v -> signed16 (v mod 65536) = v.
Proof.
  unfold is_i16, signed16. intros Hv.
  destruct (Z_lt_le_dec v 0) as [Hneg | Hpos].
  - rewrite <- (Z.mod_add v 1 65536) by lia.
    rewrite Z.mod_small by lia.
    replace (v + 1 * 65536 <? 32768) with false
      by (symmetry; apply Z.ltb_ge; lia).
    lia.
  - rewrite Z.mod_small by lia.
    now replace (v <? 32768) with true by (symmetry; apply Z.ltb_lt; lia).
Qed.

(** A status record whose 16-bit fields are in range is what its image
    reads back as. *)
Lemma Status_image_roundtrip (d : Status_t) :
  is_u16 (voltage d) -> is_i16 (current d) ->
  is_u16 (remainingCapacity d) -> is_u16 (nominalCapacity d) ->
  is_u16 (cycles d) -> is_u16 (productionDate d) ->
  is_u16 (balanceLow d) -> is_u16 (balanceHigh d) -> is_u16 (fault d) ->
  Status_of_image (Status_image d) = d.
Proof.
  intros. destruct d as [v c rc nc cy pd bl bh f ce ot]. cbn [voltage current
    remainingCapacity nominalCapacity cycles productionDate balanceLow
    balanceHigh fault cells other] in *.
  unfold Status_of_image, Status_image.
  cbn [voltage current remainingCapacity nominalCapacity cycles productionDate
       balanceLow balanceHigh fault cells other].
  change (skipn 0 ?l) with l.
  repeat match goal with
         | |- context [skipn ?k (u16_bytes ?x ++ ?r)] =>
             change (skipn k (u16_bytes x ++ r))
               with (skipn (k - 2) r)
         end.
  cbn [Nat.sub skipn nth].
  rewrite (u16_image_bits c), signed16_bits by assumption.
  now rewrite !u16_roundtrip by assumption.
Qed.

(** ** The checksum *)

Lemma crc_loop_sum (payload rest : list Z) (x : Z) :
  crc_loop (List.length payload) (payload ++ rest) (wrap16 x)
  = wrap16 (x - sum payload).
Proof.
  revert x. induction payload as [| a payload IH]; intros x; simpl.
  - now rewrite Z.sub_0_r.
  - rewrite wrap16_sub_l, IH. f_equal. lia.
Qed.

(** The accumulator of [genCrc] on a request that passes its guard. *)
Lemma genCrc_holds (byte len : Z) (data : ptr) (payload : list Z) :
  holds data payload ->
  Z.of_nat (List.length payload) = len ->
  len < 31 ->
  genCrc byte len data = swap (wrap16 (0 - byte - len - sum payload)).
Proof.
  intros Hd Hlen Hlt. unfold genCrc.
  replace (len <? 31) with true by (symmetry; apply Z.ltb_lt; exact Hlt).
  destruct data as [m |]; simpl in Hd.
  - destruct Hd as [rest ->].
    rewrite orb_true_r. simpl andb. cbv iota.
    rewrite wrap16_sub_l.
    replace (Z.to_nat len) with (List.length payload) by lia.
    simpl deref. now rewrite crc_loop_sum.
  - subst payload. simpl in Hlen. subst len. simpl.
    rewrite wrap16_sub_l. f_equal. f_equal. lia.
Qed.

Lemma genCrc_rejects (byte len : Z) (data : ptr) :
  31 <= len \/ (0 < len /\ data = None) ->
  genCrc byte len data = 0.
Proof.
  intros [H | [H ->]]; unfold genCrc.
  - replace (len <? 31) with false by (symmetry; apply Z.ltb_ge; exact H).
    reflexivity.
  - replace (len =? 0) with false by (symmetry; apply Z.eqb_neq; lia).
    simpl. now rewrite andb_false_r.
Qed.

Lemma genCrc_u16 (byte len : Z) (data : ptr) : is_u16 (genCrc byte len data).
Proof. unfold genCrc. apply swap_u16. Qed.

(** The checksum of a request that passes the guard is 0 only when the
    accumulator is, that is when seed, length and payload sum to a multiple
    of 65536. *)
Lemma genCrc_nonzero (byte len : Z) (data : ptr) (payload : list Z) :
  holds data payload ->
  Z.of_nat (List.length payload) = len ->
  len < 31 ->
  0 < byte + len + sum payload < 65536 ->
  genCrc byte len data <> 0.
Proof.
  intros Hd Hlen Hlt Hsum.
  rewrite (genCrc_holds byte len data payload) by assumption.
  intros H. apply swap_zero in H; [| apply wrap16_u16].
  unfold wrap16 in H.
  replace (0 - byte - len - sum payload)
    with (65536 - (byte + len + sum payload) + (-1) * 65536) in H by lia.
  rewrite Z.mod_add, Z.mod_small in H by lia. lia.
Qed.

Lemma prepareCmd_eq (header : request_header_t) (data : ptr) :
  prepareCmd header data
  = (negb (genCrc (command header) (length header) data =? 0),
     mkRequest 221 (command header) (code header) (length header),
     genCrc (command header) (length header) data).
Proof. reflexivity. Qed.

(** ** The phases of [execute] *)

Lemma execute_rejected self h c r w :
  genCrc (command h) (length h) c = 0 ->
  execute self h c r w = ((false, r), w, []).
Proof.
  intros H. unfold execute. rewrite prepareCmd_eq, H. reflexivity.
Qed.

Lemma execute_sent self h c r w :
  genCrc (command h) (length h) c <> 0 ->
  execute self h c r w =
    let crc := genCrc (command h) (length h) c in
    let '(_, w1, e1) := pace self w in
    let '(rc, w2, e2) :=
      transmit self (mkRequest 221 (command h) (code h) (length h)) c crc 119 w1 in
    let '(res, w3, e3) :=
      (if rc then receive self r crc 119 else ret (false, r)) w2 in
    (res, mkWorld (clock w3) (clock w3) (rx w3) (tx_room w3), e1 ++ e2 ++ e3).
Proof.
  intros H. unfold execute. rewrite prepareCmd_eq.
  apply Z.eqb_neq in H. rewrite H. cbn [negb].
  unfold bind at 1.
  destruct (pace self w) as [[u w1] e1].
  unfold bind at 1.
  destruct (transmit _ _ _ _ _ w1) as [[rc w2] e2].
  unfold bind at 1.
  destruct rc.
  - destruct (receive _ _ _ _ w2) as [[[rc' res] w3] e3].
    cbn. now rewrite !app_nil_r.
  - cbn. now rewrite !app_nil_r.
Qed.

Lemma pace_eq self w :
  pace self w =
    let remaining := wrap32 (_delay self - wrap32 (clock w - prev_cell w)) in
    if remaining <=? _delay self
    then (tt, mkWorld (wrap32 (clock w + remaining)) (prev_cell w) (rx w) (tx_room w),
          [Delay remaining])
    else (tt, w, []).
Proof.
  unfold pace, bind, millis, load_prev. cbv zeta.
  destruct (_ <=? _); reflexivity.
Qed.

Lemma read_mem_length n m : List.length (read_mem n m) = n.
Proof. revert m; induction n; intros; simpl; auto. Qed.

Lemma write_all_eq bytes size (s : unit) w :
  write_all bytes size s w =
    let n := Nat.min (List.length bytes) (tx_room w) in
    ((Z.of_nat n =? size, s),
     mkWorld (clock w) (prev_cell w) (rx w) (tx_room w - n), [Write bytes n]).
Proof. reflexivity. Qed.

Ltac reduce_run :=
  cbv beta iota zeta; cbn [tx_room clock rx prev_cell fst snd].

Ltac split_run :=
  repeat (reduce_run;
          match goal with
          | |- context [if ?c then _ else _] => destruct c eqn:?
          end);
  reduce_run.

Lemma transmit_shape self h c crc stop w :
  exists rc room evs,
    transmit self h c crc stop w
    = (rc, mkWorld (clock w) (prev_cell w) (rx w) room, evs)
    /\ slept evs = 0
    /\ (exists rest, writes evs = request_bytes h :: rest)
    /\ ((4 <= tx_room w)%nat ->
        exists rest, writes evs
          = request_bytes h :: read_mem (Z.to_nat (length h)) (deref c) :: rest)
    /\ (0 <= length h ->
        (4 + Z.to_nat (length h) + 3 <= tx_room w)%nat ->
        rc = true /\ room = (tx_room w - (4 + Z.to_nat (length h) + 3))%nat).
Proof.
  unfold transmit, and_then, write_all, serial_write,
    serial_flush, digitalWrite, ret, bind.
  rewrite !read_mem_length. cbn [List.length request_bytes u16_bytes sizeof_request_header].
  split_run.
  all: do 3 eexists; split; [reflexivity |].
  all: cbn [app slept writes].
  all: repeat match goal with H : (_ =? _) = _ |- _ => first [apply Z.eqb_eq in H | apply Z.eqb_neq in H] end.
  all: unfold sizeof_request_header in *.
  all: repeat split; intros; eauto.
  all: try apply Z.eqb_eq; try lia; try (exfalso; lia).
Qed.


Lemma firstn_exact {A} (l1 l2 : list A) : firstn (List.length l1) (l1 ++ l2) = l1.
Proof. induction l1; simpl; congruence. Qed.

Lemma skipn_exact {A} (l1 l2 : list A) : skipn (List.length l1) (l1 ++ l2) = l2.
Proof. induction l1; simpl; congruence. Qed.



Lemma slept_app e1 e2 : slept (e1 ++ e2) = slept e1 + slept e2.
Proof.
  induction e1 as [| e e1 IH]; simpl; [reflexivity |].
  destruct e; rewrite ?IH; lia.
Qed.

Lemma writes_app e1 e2 : writes (e1 ++ e2) = writes e1 ++ writes e2.
Proof.
  induction e1 as [| e e1 IH]; simpl; [reflexivity |].
  destruct e; rewrite ?IH; reflexivity.
Qed.

Section AndThen.
Context {S : Type}.
Variables a b : S -> M (bool * S).

Lemma and_then_true s w s1 w1 e1 :
  a s w = ((true, s1), w1, e1) ->
  (a &&& b)%jbd s w = let '(r, w2, e2) := b s1 w1 in (r, w2, e1 ++ e2).
Proof. intros H. unfold and_then, bind. now rewrite H. Qed.

Lemma and_then_false s w s1 w1 e1 :
  a s w = ((false, s1), w1, e1) ->
  (a &&& b)%jbd s w = ((false, s1), w1, e1).
Proof.
  intros H. unfold and_then, bind. rewrite H. cbn. now rewrite app_nil_r.
Qed.

Lemma and_then_value s w :
  fst (value ((a &&& b)%jbd s w))
  = fst (value (a s w))
    && fst (value (b (snd (value (a s w))) (world (a s w)))).
Proof.
  unfold and_then, bind.
  destruct (a s w) as [[[ok s1] w1] e1]. cbn.
  destruct ok; cbn; [| reflexivity].
  destruct (b s1 w1) as [[[ok2 s2] w2] e2]. reflexivity.
Qed.
End AndThen.

Lemma reader_and_then a b : reader a -> reader b -> reader (a &&& b)%jbd.
Proof.
  intros Ha Hb l w. specialize (Ha l w).
  unfold and_then, bind.
  destruct (a l w) as [[[ok l1] w1] e1]. cbn in Ha.
  destruct Ha as (Hc & Hp & Ht & Hs & Hw).
  destruct ok.
  - specialize (Hb l1 w1). destruct (b l1 w1) as [[[ok2 l2] w2] e2].
    cbn in *. rewrite slept_app, writes_app.
    destruct Hb as (-> & -> & -> & -> & ->). rewrite Hs, Hw. auto.
  - cbn. rewrite app_nil_r. auto.
Qed.

Lemma reader_check f : reader (check f).
Proof. intros l w. cbn. auto. Qed.

Lemma reader_read_header : reader read_header.
Proof. intros l w. cbn. auto. Qed.

Lemma reader_read_payload : reader read_payload.
Proof.
  intros l w. unfold read_payload.
  destruct (_ =? 0); [cbn; auto |].
  destruct (l_result l); cbn; auto.
Qed.

Lemma reader_read_crc : reader read_crc.
Proof. intros l w. cbn. auto. Qed.

Lemma reader_read_stop : reader read_stop.
Proof. intros l w. cbn. auto. Qed.

Lemma reader_read_response : reader read_response.
Proof.
  unfold read_response.
  repeat apply reader_and_then;
    auto using reader_check, reader_read_header, reader_read_payload,
      reader_read_crc, reader_read_stop.
Qed.

Lemma receive_shape self result crc stop w :
  let r := receive self result crc stop w in
  clock (world r) = clock w
  /\ prev_cell (world r) = prev_cell w
  /\ tx_room (world r) = tx_room w
  /\ slept (events r) = 0
  /\ writes (events r) = [].
Proof.
  unfold receive, bind.
  pose proof (reader_read_response
                (mkLocals (mkResponse 0 0 0) result crc stop) w) as Hc.
  destruct (read_response _ w) as [[[rc l1] w1] e1]. cbn in Hc.
  destruct Hc as (Hc & Hp & Ht & Hs & Hw).
  destruct (_serial_cb self); cbn;
    rewrite ?slept_app, ?writes_app, ?Hs, ?Hw; cbn; auto.
Qed.

Lemma receive_value self result crc stop w :
  fst (value (receive self result crc stop w))
  = fst (value (read_response (mkLocals (mkResponse 0 0 0) result crc stop) w)).
Proof.
  unfold receive, bind.
  destruct (read_response _ w) as [[[rc l1] w1] e1].
  destruct (_serial_cb self); reflexivity.
Qed.


(** *** Short reads *)

Lemma consumes_and_then a b k j :
  consumes a k -> takes b j -> consumes (a &&& b)%jbd (fun n => (k n + j n)%nat).
Proof.
  intros Ha Hb l w. specialize (Ha l w).
  unfold and_then, bind.
  destruct (a l w) as [[[ok l1] w1] e1]. cbn in Ha.
  destruct ok; [| cbn; discriminate].
  destruct (Ha eq_refl) as [Hn Hlen].
  specialize (Hb l1 w1).
  destruct (b l1 w1) as [[[ok2 l2] w2] e2]. cbn in *.
  intros ->. destruct (Hb eq_refl) as [Hh Hlen2].
  rewrite Hh, Hn in *. split; [reflexivity | lia].
Qed.

Lemma consumes_read_header : consumes read_header (fun _ => 3%nat).
Proof.
  intros l w. unfold read_header, bind, serial_readBytes, ret.
  destruct (rx w) as [| a [| b [| c t]]]; cbn; try discriminate.
  intros _. split; [reflexivity | lia].
Qed.

Lemma takes_check f : takes (check f) (fun _ => 0%nat).
Proof. intros l w _. cbn. split; [reflexivity | lia]. Qed.

Lemma firstn_full {A} (n : nat) (l : list A) :
  List.length (firstn n l) = n -> (List.length (skipn n l) + n = List.length l)%nat.
Proof.
  intros H. rewrite <- (firstn_skipn n l) at 2.
  rewrite length_app, H. lia.
Qed.

Lemma takes_read_payload : takes read_payload (fun n => Z.to_nat n).
Proof.
  intros l w. unfold read_payload.
  destruct (rsp_length (l_header l) =? 0) eqn:E0.
  - apply Z.eqb_eq in E0. rewrite E0. cbn. split; [reflexivity | lia].
  - destruct (l_result l); [| cbn; discriminate].
    unfold bind, serial_readBytes, ret. cbn.
    intros H. apply Z.eqb_eq in H. split; [reflexivity |].
    apply firstn_full. lia.
Qed.

Lemma takes_read_crc : takes read_crc (fun _ => 2%nat).
Proof.
  intros l w. unfold read_crc, bind, serial_readBytes, ret.
  cbn [value world fst snd rx l_header].
  intros H. apply Z.eqb_eq in H. split; [reflexivity |].
  apply firstn_full. lia.
Qed.

Lemma takes_read_stop : takes read_stop (fun _ => 1%nat).
Proof.
  intros l w. unfold read_stop, bind, serial_readBytes, ret.
  cbn [value world fst snd rx l_header].
  intros H. apply Z.eqb_eq in H. split; [reflexivity |].
  apply firstn_full. lia.
Qed.

Lemma read_response_short l w :
  short_read (rx w) = true -> fst (value (read_response l w)) = false.
Proof.
  intros Hs. apply Nat.ltb_lt in Hs.
  destruct (fst (value (read_response l w))) eqn:E; [| reflexivity].
  exfalso.
  assert (Hc : consumes read_response
                 (fun n => (3 + 0 + Z.to_nat n + 2 + 1 + 0 + 0)%nat)).
  { unfold read_response.
    repeat (apply consumes_and_then
              with (k := fun n => _) (j := fun n => _)).
    - apply consumes_read_header.
    - apply takes_check.
    - apply takes_read_payload.
    - apply takes_read_crc.
    - apply takes_read_stop.
    - apply takes_check.
    - apply takes_check. }
  destruct (Hc l w E) as [_ Hlen]. lia.
Qed.

(** *** Complete frames *)

Lemma and_then_check {S} (a : S -> M (bool * S)) (f : S -> bool) s w :
  (a &&& check f)%jbd s w
  = let '(ok, s1, w1, e1) := a s w in ((ok && f s1, s1), w1, e1).
Proof.
  unfold and_then, check, bind, ret.
  destruct (a s w) as [[[ok s1] w1] e1].
  destruct ok; cbn; now rewrite app_nil_r.
Qed.

Lemma read_header_frame l w s r n tail :
  rx w = s :: r :: n :: tail ->
  read_header l w
  = ((true, mkLocals (mkResponse s r n) (l_result l) (l_crc l) (l_stop l)),
     mkWorld (clock w) (prev_cell w) tail (tx_room w),
     [ReadBytes 3 [s; r; n]]).
Proof.
  intros H. unfold read_header, bind, serial_readBytes, ret.
  rewrite H. reflexivity.
Qed.


Lemma read_crc_frame l w c0 c1 tail :
  rx w = c0 :: c1 :: tail ->
  read_crc l w
  = ((true, mkLocals (l_header l) (l_result l) (u16_of_bytes [c0; c1]) (l_stop l)),
     mkWorld (clock w) (prev_cell w) tail (tx_room w),
     [ReadBytes 2 [c0; c1]]).
Proof.
  intros H. unfold read_crc, bind, serial_readBytes, ret.
  rewrite H. reflexivity.
Qed.

Lemma read_stop_frame l w stopb tail :
  rx w = stopb :: tail ->
  read_stop l w
  = ((true, mkLocals (l_header l) (l_result l) (l_crc l) stopb),
     mkWorld (clock w) (prev_cell w) tail (tx_room w),
     [ReadBytes 1 [stopb]]).
Proof.
  intros H. unfold read_stop, bind, serial_readBytes, ret.
  rewrite H. reflexivity.
Qed.


(** ** Whole transactions *)

Lemma encodes_crc header data :
  encodes header data <-> genCrc (command header) (length header) data <> 0.
Proof.
  unfold encodes. rewrite prepareCmd_eq. cbn [fst].
  rewrite negb_true_iff, Z.eqb_neq. tauto.
Qed.

Lemma pace_shape self w :
  prev_cell (world (pace self w)) = prev_cell w
  /\ rx (world (pace self w)) = rx w
  /\ tx_room (world (pace self w)) = tx_room w
  /\ writes (events (pace self w)) = [].
Proof.
  rewrite pace_eq. cbv zeta. destruct (_ <=? _); cbn; auto.
Qed.

(** The return value of a transaction that was sent: the writes went
    through and the response passes. *)
Lemma execute_verdict self h c r w :
  encodes h c ->
  exists (tx_ok : bool) (w2 : World),
    rx w2 = rx w
    /\ (0 <= length h ->
        (4 + Z.to_nat (length h) + 3 <= tx_room w)%nat -> tx_ok = true)
    /\ fst (value (execute self h c r w))
       = tx_ok
         && fst (value (read_response
                          (mkLocals (mkResponse 0 0 0) r
                                    (genCrc (command h) (length h) c) 119) w2)).
Proof.
  intros Henc. apply encodes_crc in Henc.
  rewrite (execute_sent self h c r w Henc). cbv zeta.
  destruct (pace_shape self w) as (_ & Hrx & Hroom & _).
  destruct (pace self w) as [[u w1] e1]. cbn in Hrx, Hroom.
  destruct (transmit_shape self
              (mkRequest 221 (command h) (code h) (length h)) c
              (genCrc (command h) (length h) c) 119 w1)
    as (rc & room & evs & Etx & _ & _ & _ & Hok).
  rewrite Etx. cbn [length] in Hok.
  exists rc, (mkWorld (clock w1) (prev_cell w1) (rx w1) room).
  split; [exact Hrx |]. split.
  - intros H0 H1. apply Hok; [exact H0 | lia].
  - destruct rc; [| reflexivity].
    pose proof (receive_value self r (genCrc (command h) (length h) c) 119
                  (mkWorld (clock w1) (prev_cell w1) (rx w1) room)) as Hv.
    destruct (receive _ _ _ _ _) as [[[rc' res] w3] e3].
    cbn in *. exact Hv.
Qed.

(** What a transaction that was sent does to the clock cell and when it
    sleeps: only while pacing, before anything is written. *)
Lemma execute_trace self h c r w :
  encodes h c ->
  prev_cell (world (execute self h c r w)) = clock (world (execute self h c r w))
  /\ exists evs,
       events (execute self h c r w) = events (pace self w) ++ evs
       /\ slept evs = 0
       /\ exists rest,
            writes evs = [221; command h; code h; length h] :: rest
            /\ ((4 <= tx_room w)%nat ->
                exists rest',
                  rest = read_mem (Z.to_nat (length h)) (deref c) :: rest').
Proof.
  intros Henc. apply encodes_crc in Henc.
  rewrite (execute_sent self h c r w Henc). cbv zeta.
  destruct (pace_shape self w) as (_ & _ & Hroom & _).
  destruct (pace self w) as [[u w1] e1]. cbn in Hroom.
  destruct (transmit_shape self
              (mkRequest 221 (command h) (code h) (length h)) c
              (genCrc (command h) (length h) c) 119 w1)
    as (rc & room & evs & Etx & Hs & [rest Hw] & Hw2 & _).
  rewrite Etx. cbn [length request_bytes start command code] in Hw, Hw2.
  destruct rc.
  - pose proof (receive_shape self r (genCrc (command h) (length h) c) 119
                  (mkWorld (clock w1) (prev_cell w1) (rx w1) room)) as Hr.
    destruct (receive _ _ _ _ _) as [[[rc' res] w3] e3].
    cbn in Hr. destruct Hr as (_ & _ & _ & Hs3 & Hw3).
    cbn. split; [reflexivity |].
    exists (evs ++ e3). split; [reflexivity |].
    rewrite slept_app, writes_app, Hs, Hs3, Hw3, app_nil_r.
    split; [reflexivity |].
    exists rest. split; [exact Hw |].
    intros H4. rewrite Hroom in Hw2. destruct (Hw2 H4) as [rest' Hw'].
    exists rest'. congruence.
  - cbn. split; [reflexivity |].
    exists (evs ++ []). split; [reflexivity |].
    rewrite app_nil_r. split; [exact Hs |].
    exists rest. split; [exact Hw |].
    intros H4. rewrite Hroom in Hw2. destruct (Hw2 H4) as [rest' Hw'].
    exists rest'. congruence.
Qed.

(** * The claims *)

(** C1. For a seed byte, a length below 31 and a payload of exactly that many
    bytes, [genCrc] returns the byte-swap of (0 - seed - length - sum of the
    payload bytes) modulo 2^16; the result is a 16-bit value that depends on
    seed, length and payload only, not on what else lies behind the pointer
    (a null pointer being fine for the empty payload). *)
Theorem genCrc_checksum (byte len : Z) (payload : list Z) (data : ptr) :
  is_byte byte ->
  Z.of_nat (List.length payload) = len ->
  len < 31 ->
  Forall is_byte payload ->
  holds data payload ->
  genCrc byte len data = swap ((0 - byte - len - sum payload) mod 65536)
  /\ is_u16 (genCrc byte len data)
  /\ forall data', holds data' payload -> genCrc byte len data' = genCrc byte len data.
Proof.
  intros _ Hlen Hlt _ Hd. split; [| split].
  - now apply genCrc_holds.
  - apply genCrc_u16.
  - intros data' Hd'.
    rewrite (genCrc_holds byte len data payload) by assumption.
    now apply genCrc_holds.
Qed.

Lemma genCrc_checksum_witness :
  genCrc 3 2 (Some [170; 187; 9]) = swap ((0 - 3 - 2 - sum [170; 187]) mod 65536)
  /\ is_u16 (genCrc 3 2 (Some [170; 187; 9]))
  /\ forall data', holds data' [170; 187] ->
       genCrc 3 2 data' = genCrc 3 2 (Some [170; 187; 9]).
Proof.
  apply (genCrc_checksum 3 2 [170; 187] (Some [170; 187; 9])).
  - unfold is_byte; lia.
  - reflexivity.
  - lia.
  - repeat constructor; unfold is_byte; lia.
  - exists [9]. reflexivity.
Defined.

(** C6. A request of length 31 or more, or of positive length with a null
    payload pointer, gets the checksum 0, [prepareCmd] reports failure, and
    [execute] returns false leaving the world as it was and making no call at
    all: nothing written, nothing read, no pin set, no sleep. *)
Theorem rejected_request_untouched (self : JbdBms) (header : request_header_t)
    (cmd result : ptr) (w : World) :
  31 <= length header \/ (0 < length header /\ cmd = None) ->
  genCrc (command header) (length header) cmd = 0
  /\ fst (fst (prepareCmd header cmd)) = false
  /\ execute self header cmd result w = ((false, result), w, []).
Proof.
  intros H.
  pose proof (genCrc_rejects (command header) (length header) cmd H) as Hcrc.
  split; [exact Hcrc |]. split.
  - rewrite prepareCmd_eq, Hcrc. reflexivity.
  - now apply execute_rejected.
Qed.

Lemma rejected_request_untouched_witness :
  genCrc 90 31 (Some (repeat 1 31)) = 0
  /\ fst (fst (prepareCmd (mkRequest 0 90 225 31) (Some (repeat 1 31)))) = false
  /\ execute (mkJbdBms 10 4 true) (mkRequest 0 90 225 31) (Some (repeat 1 31))
             None (mkWorld 1000 995 [221; 0; 0; 0; 0; 119] 100)
     = ((false, None), mkWorld 1000 995 [221; 0; 0; 0; 0; 119] 100, []).
Proof.
  apply (rejected_request_untouched (mkJbdBms 10 4 true) (mkRequest 0 90 225 31)
           (Some (repeat 1 31)) None (mkWorld 1000 995 [221; 0; 0; 0; 0; 119] 100)).
  left. simpl. lia.
Defined.

Lemma sum_bytes_bound (p : list Z) :
  Forall is_byte p -> 0 <= sum p <= 255 * Z.of_nat (List.length p).
Proof.
  unfold sum.
  induction 1 as [| a p Ha _ IH]; cbn [fold_right List.length].
  - lia.
  - unfold is_byte in Ha. lia.
Qed.

(** The algorithm of section 4.1 in closed form. *)
Lemma checksum_4_1_sum (seedByte len : Z) (payload : list Z) :
  checksum_4_1 seedByte len payload
  = swap (wrap16 (0 - seedByte - len - sum payload)).
Proof.
  unfold checksum_4_1. cbv zeta. f_equal.
  rewrite wrap16_sub_l.
  generalize (0 - seedByte - len) as x.
  induction payload as [| a payload IH]; intros x; cbn [fold_left sum fold_right].
  - now rewrite Z.sub_0_r.
  - rewrite wrap16_sub_l. unfold sum in IH. rewrite IH. f_equal. lia.
Qed.

(** Below its bound of 31, and on a pointer that holds the payload,
    [genCrc] computes the checksum of section 4.1. *)
Lemma genCrc_checksum_4_1 (byte len : Z) (data : ptr) (payload : list Z) :
  holds data payload ->
  Z.of_nat (List.length payload) = len ->
  len < 31 ->
  genCrc byte len data = checksum_4_1 byte len payload.
Proof.
  intros Hd Hlen Hlt. rewrite checksum_4_1_sum. now apply genCrc_holds.
Qed.

(** C7, counterexample.  The request with seed byte 0, length 0 and no
    payload is valid, and its checksum is 0, the value that stands for a
    failed generation: [prepareCmd] returns false, the request is not
    encoded. *)
Lemma round_trip_refused_at_zero :
  ~ round_trip_verifies (mkRequest 0 0 3 0) None None.
Proof. unfold round_trip_verifies. cbn. intros [H _]. discriminate H. Qed.

(** C7, amended.  Round trip: for a seed byte, a length below 31 and a
    payload of that many bytes, other than seed byte 0 with length 0,
    [prepareCmd] returns true, the header goes out with the start marker
    0xDD and its other fields as they were, the checksum stored is that of
    section 4.1 over seed, length and payload, and [isValid] accepts it
    against a response header with the same seed and length and any pointer
    holding the same payload. *)
Theorem prepareCmd_isValid (header : request_header_t) (payload : list Z)
    (data data' : ptr) (s : Z) :
  is_byte (command header) ->
  Forall is_byte payload ->
  Z.of_nat (List.length payload) = length header ->
  length header < 31 ->
  holds data payload ->
  holds data' payload ->
  command header <> 0 \/ length header <> 0 ->
  let '(ok, header', crc) := prepareCmd header data in
  ok = true
  /\ header' = mkRequest 221 (command header) (code header) (length header)
  /\ crc = checksum_4_1 (command header) (length header) payload
  /\ isValid (mkResponse s (command header) (length header)) data' crc = true
  /\ round_trip_verifies header data data'.
Proof.
  intros Hb Hp Hlen Hlt Hd Hd' Hnz.
  unfold round_trip_verifies. rewrite prepareCmd_eq.
  assert (E : genCrc (command header) (length header) data
              = genCrc (command header) (length header) data').
  { rewrite (genCrc_holds _ _ data payload), (genCrc_holds _ _ data' payload)
      by assumption. reflexivity. }
  assert (Hok : negb (genCrc (command header) (length header) data =? 0) = true).
  { apply negb_true_iff, Z.eqb_neq.
    apply (genCrc_nonzero _ _ _ payload); try assumption.
    pose proof (sum_bytes_bound payload Hp) as Hs.
    unfold is_byte in Hb. lia. }
  unfold isValid, genResponseCrc. cbn [returncode rsp_length].
  rewrite <- E, Z.eqb_refl, Hok.
  repeat split. now apply genCrc_checksum_4_1.
Qed.

Lemma prepareCmd_isValid_witness :
  let '(ok, header', crc) := prepareCmd (mkRequest 0 90 225 2) (Some [0; 2]) in
  ok = true
  /\ header' = mkRequest 221 90 225 2
  /\ crc = checksum_4_1 90 2 [0; 2]
  /\ isValid (mkResponse 221 90 2) (Some [0; 2; 7; 7]) crc = true
  /\ round_trip_verifies (mkRequest 0 90 225 2) (Some [0; 2])
       (Some [0; 2; 7; 7]).
Proof.
  apply (prepareCmd_isValid (mkRequest 0 90 225 2) [0; 2] (Some [0; 2])
           (Some [0; 2; 7; 7]) 221).
  - unfold is_byte; simpl; lia.
  - repeat constructor; unfold is_byte; lia.
  - reflexivity.
  - simpl; lia.
  - exists []. reflexivity.
  - exists [7; 7]. reflexivity.
  - left. simpl. lia.
Defined.





(** The response of the witness is accepted. *)
Example short_response_accepted :
  accepted_as_specified 221 0 2 [170; 187] 254 153
  /\ fst (value (execute (mkJbdBms 10 4 true) (mkRequest 0 165 3 0) None
                   (Some [1; 2; 3; 4])
                   (mkWorld 1000 995 [221; 0; 2; 170; 187; 254; 153; 119] 100)))
     = true.
Proof.
  split; [| reflexivity].
  unfold accepted_as_specified.
    split; [reflexivity |]. split; [lia |]. split; reflexivity.
Qed.

(** Declared lengths from 31 to 64 pass the length check of [execute], but
    [genCrc] refuses them: the checksum such a response is compared with is
    the sentinel 0. *)
Lemma long_response_checksum (rcode n : Z) (payload : ptr) :
  31 <= n -> genCrc rcode n payload = 0.
Proof. intros H. apply genCrc_rejects. now left. Qed.

(** A response of 32 payload bytes, all 1: with the checksum bytes 0 0 it
    is accepted; with the bytes of the subtraction of section 4.1, which are
    0xFF 0xC0, it is not. *)
Example long_response_accepted_with_zero :
  fst (value (execute (mkJbdBms 10 (-1) false) (mkRequest 0 165 4 0) None
                (Some (repeat 0 32))
                (mkWorld 1000 0 ([221; 0; 32] ++ repeat 1 32 ++ [0; 0; 119]) 100)))
  = true.
Proof. reflexivity. Qed.

Example long_response_rejected_with_sum :
  u16_bytes (swap (wrap16 (0 - 0 - 32 - sum (repeat 1 32)))) = [255; 192]
  /\ fst (value (execute (mkJbdBms 10 (-1) false) (mkRequest 0 165 4 0) None
                   (Some (repeat 0 32))
                   (mkWorld 1000 0
                      ([221; 0; 32] ++ repeat 1 32 ++ [255; 192; 119]) 100)))
     = false.
Proof. split; reflexivity. Qed.

(** C3, counterexample.  A request of length 31 does not encode: [execute]
    returns before the clock is read and the cell keeps 995 while the clock
    says 1000. *)
Lemma timestamp_not_updated_when_rejected :
  ~ timestamp_updated (mkJbdBms 10 (-1) false) (mkRequest 0 165 3 31) None None
      (mkWorld 1000 995 [] 100).
Proof. unfold timestamp_updated. vm_compute. discriminate. Qed.

(** C3, amended.  After every call of [execute] whose request encodes and
    whose copy for the observer stays within the result buffer, whether it
    returns true or false, the cell behind [_prev] holds the current time; a
    call whose request does not encode returns false and leaves the cell,
    like everything else, as it was. *)
Theorem timestamp_updated_when_sent (self : JbdBms) (header : request_header_t)
    (cmd result : ptr) (w : World) :
  (encodes header cmd ->
   observer_in_bounds self result (rx w) = true ->
   timestamp_updated self header cmd result w)
  /\ (~ encodes header cmd ->
      execute self header cmd result w = ((false, result), w, [])).
Proof.
  split.
  - intros Henc _. unfold timestamp_updated.
    now destruct (execute_trace self header cmd result w Henc) as [H _].
  - intros Hno. apply execute_rejected.
    destruct (Z.eq_dec (genCrc (command header) (length header) cmd) 0)
      as [E | E]; [exact E |].
    exfalso. apply Hno. now apply encodes_crc.
Qed.

Lemma timestamp_updated_when_sent_witness :
  fst (value (execute (mkJbdBms 10 4 true) (mkRequest 0 165 3 0) None
                (Some [0; 0]) (mkWorld 1000 995 [221; 0; 2; 7] 100))) = false
  /\ timestamp_updated (mkJbdBms 10 4 true) (mkRequest 0 165 3 0) None
       (Some [0; 0]) (mkWorld 1000 995 [221; 0; 2; 7] 100).
Proof.
  split; [reflexivity |].
  apply (proj1 (timestamp_updated_when_sent (mkJbdBms 10 4 true)
                  (mkRequest 0 165 3 0) None (Some [0; 0])
                  (mkWorld 1000 995 [221; 0; 2; 7] 100))).
  - reflexivity.
  - reflexivity.
Defined.

(** The sleep of one transaction, from the state the previous one left. *)
Lemma pace_sleeps (self : JbdBms) (w : World) :
  is_byte (_delay self) ->
  let elapsed := wrap32 (clock w - prev_cell w) in
  (elapsed < _delay self ->
   events (pace self w) = [Delay (_delay self - elapsed)])
  /\ (_delay self <= elapsed -> slept (events (pace self w)) = 0).
Proof.
  intros Hd elapsed.
  assert (He : 0 <= elapsed < 4294967296)
    by (apply Z.mod_pos_bound; lia).
  unfold is_byte in Hd. rewrite pace_eq. cbv zeta. fold elapsed.
  split; intros H.
  - unfold wrap32. rewrite Z.mod_small by lia.
    replace (_delay self - elapsed <=? _delay self) with true
      by (symmetry; apply Z.leb_le; lia).
    reflexivity.
  - destruct (Z.eq_dec elapsed (_delay self)) as [E | E].
    + rewrite E, Z.sub_diag. unfold wrap32. rewrite Z.mod_0_l by lia.
      replace (0 <=? _delay self) with true by (symmetry; apply Z.leb_le; lia).
      reflexivity.
    + replace (wrap32 (_delay self - elapsed))
        with (_delay self - elapsed + 4294967296).
      * replace (_delay self - elapsed + 4294967296 <=? _delay self) with false
          by (symmetry; apply Z.leb_gt; lia).
        reflexivity.
      * unfold wrap32.
        rewrite <- (Z.mod_add (_delay self - elapsed) 1 4294967296) by lia.
        rewrite Z.mod_small by lia. lia.
Qed.

(** C5. Two consecutive transactions on one pacing cell, [gap] milliseconds
    apart: the elapsed time the second one computes, in 32-bit arithmetic, is
    [gap] wherever the clock stands; when it is below the minimum delay the
    second transaction first sleeps for the difference, before any write and
    only then; when it is at least the minimum delay it does not sleep. *)
Theorem pacing_between_transactions (self1 self2 : JbdBms)
    (h1 h2 : request_header_t) (cmd1 res1 cmd2 res2 : ptr) (w0 : World)
    (gap : Z) :
  encodes h1 cmd1 ->
  encodes h2 cmd2 ->
  is_byte (_delay self2) ->
  0 <= gap < 4294967296 ->
  let w1 := idle gap (world (execute self1 h1 cmd1 res1 w0)) in
  let evs := events (execute self2 h2 cmd2 res2 w1) in
  wrap32 (clock w1 - prev_cell w1) = gap
  /\ (gap < _delay self2 ->
      exists rest,
        evs = Delay (_delay self2 - gap) :: rest
        /\ slept rest = 0
        /\ writes rest <> [])
  /\ (_delay self2 <= gap -> slept evs = 0).
Proof.
  intros Henc1 Henc2 Hd Hgap w1 evs.
  assert (Hel : wrap32 (clock w1 - prev_cell w1) = gap).
  { subst w1. unfold idle. cbn [clock prev_cell].
    destruct (execute_trace self1 h1 cmd1 res1 w0 Henc1) as [-> _].
    unfold wrap32. rewrite Zminus_mod_idemp_l.
    replace (clock (world (execute self1 h1 cmd1 res1 w0)) + gap
             - clock (world (execute self1 h1 cmd1 res1 w0))) with gap by lia.
    apply Z.mod_small. lia. }
  split; [exact Hel |].
  destruct (execute_trace self2 h2 cmd2 res2 w1 Henc2)
    as (_ & rest & Hev & Hs & rest' & Hw & _).
  destruct (pace_sleeps self2 w1 Hd) as [Hlt Hge].
  rewrite Hel in Hlt, Hge. subst evs. rewrite Hev.
  split; intros H.
  - exists rest. rewrite (Hlt H). cbn [app].
    repeat split; [exact Hs |]. rewrite Hw. discriminate.
  - rewrite slept_app, (Hge H), Hs. reflexivity.
Qed.

Lemma pacing_between_transactions_witness :
  let w1 := idle 4 (world (execute (mkJbdBms 10 4 true) (mkRequest 0 165 3 0)
                             None None (mkWorld 4294967290 7 [] 100))) in
  let evs := events (execute (mkJbdBms 10 (-1) false) (mkRequest 0 90 225 2)
                       (Some [0; 2]) None w1) in
  wrap32 (clock w1 - prev_cell w1) = 4
  /\ (4 < 10 ->
      exists rest,
        evs = Delay (10 - 4) :: rest /\ slept rest = 0 /\ writes rest <> [])
  /\ (10 <= 4 -> slept evs = 0).
Proof.
  apply (pacing_between_transactions (mkJbdBms 10 4 true) (mkJbdBms 10 (-1) false)
           (mkRequest 0 165 3 0) (mkRequest 0 90 225 2) None None (Some [0; 2])
           None (mkWorld 4294967290 7 [] 100) 4).
  - reflexivity.
  - reflexivity.
  - unfold is_byte; simpl; lia.
  - lia.
Defined.

(** At equality the second transaction calls [delay(0)]: a sleep of no
    duration. *)
Lemma pace_at_the_floor (self : JbdBms) (w : World) :
  is_byte (_delay self) ->
  wrap32 (clock w - prev_cell w) = _delay self ->
  events (pace self w) = [Delay 0].
Proof.
  unfold is_byte. intros Hd He. rewrite pace_eq. cbv zeta.
  rewrite He, Z.sub_diag. unfold wrap32. rewrite Z.mod_0_l by lia.
  replace (0 <=? _delay self) with true by (symmetry; apply Z.leb_le; lia).
  reflexivity.
Qed.

Lemma land_mask_byte (a m : Z) : is_byte m -> is_byte (Z.land a m).
Proof.
  unfold is_byte. intros Hm.
  assert (E : Z.land a m = (Z.land a m) mod 256).
  { rewrite <- land_255, <- Z.land_assoc, land_255.
    now rewrite (Z.mod_small m) by lia. }
  rewrite E. apply Z.mod_pos_bound. lia.
Qed.

Section WriteOperation.

Variables WRITE MOSFET MOSFET_BOTH : Z.
Variable self : JbdBms.

(** C9. For every switch state, [setMosfetStatus] runs one transaction
    whose header is start marker, [WRITE], [MOSFET] and the length 2, and
    whose payload is the two bytes 0 and [~status & MOSFET_BOTH]: the
    header is the first buffer written and, once the stream has taken it,
    the payload is the second. *)
Theorem setMosfetStatus_payload (status : Z) (w : World) :
  is_byte WRITE ->
  is_byte MOSFET_BOTH ->
  let status_inv := Z.land (Z.lnot status) MOSFET_BOTH in
  let r := setMosfetStatus WRITE MOSFET MOSFET_BOTH self status w in
  let e := execute self (mkRequest 0 WRITE MOSFET 2)
                   (Some [0; status_inv]) None w in
  is_byte status_inv
  /\ value r = fst (value e) /\ world r = world e /\ events r = events e
  /\ (exists rest, writes (events r) = [221; WRITE; MOSFET; 2] :: rest)
  /\ ((4 <= tx_room w)%nat ->
      exists rest,
        writes (events r) = [221; WRITE; MOSFET; 2] :: [0; status_inv] :: rest).
Proof.
  intros HW HM status_inv r e.
  assert (Hinv : is_byte status_inv) by (apply land_mask_byte; exact HM).
  assert (Hr : value r = fst (value e) /\ world r = world e
               /\ events r = events e).
  { subst r e. unfold setMosfetStatus, bind.
    replace (wrap8 (Z.land (Z.lnot status) MOSFET_BOTH)) with status_inv
      by (unfold wrap8; symmetry; apply Z.mod_small; exact Hinv).
    destruct (execute _ _ _ _ w) as [[[rc res] w'] evs].
    cbn. now rewrite app_nil_r. }
  destruct Hr as (Hv & Hw & He).
  split; [exact Hinv |]. repeat (split; [assumption |]).
  assert (Henc : encodes (mkRequest 0 WRITE MOSFET 2) (Some [0; status_inv])).
  { apply encodes_crc. cbn [command length].
    apply (genCrc_nonzero _ _ _ [0; status_inv]).
    - exists []. reflexivity.
    - reflexivity.
    - lia.
    - unfold is_byte in *. cbn. lia. }
  destruct (execute_trace self _ _ None w Henc)
    as (_ & evs & Hev & _ & rest & Hwr & Hwr2).
  destruct (pace_shape self w) as (_ & _ & _ & Hpw).
  rewrite He. fold e in Hev. rewrite Hev, writes_app, Hpw. cbn [app].
  cbn [command code length] in Hwr. split.
  - exists rest. exact Hwr.
  - intros H4. destruct (Hwr2 H4) as [rest' ->].
    exists rest'. exact Hwr.
Qed.

End WriteOperation.

Lemma setMosfetStatus_payload_witness :
  let status_inv := Z.land (Z.lnot 1) 3 in
  let r := setMosfetStatus 90 225 3 (mkJbdBms 10 4 true) 1
             (mkWorld 1000 995 [] 100) in
  let e := execute (mkJbdBms 10 4 true) (mkRequest 0 90 225 2)
                   (Some [0; status_inv]) None (mkWorld 1000 995 [] 100) in
  is_byte status_inv
  /\ value r = fst (value e) /\ world r = world e /\ events r = events e
  /\ (exists rest, writes (events r) = [221; 90; 225; 2] :: rest)
  /\ ((4 <= 100)%nat ->
      exists rest, writes (events r) = [221; 90; 225; 2] :: [0; status_inv] :: rest).
Proof.
  apply (setMosfetStatus_payload 90 225 3 (mkJbdBms 10 4 true) 1
           (mkWorld 1000 995 [] 100)); unfold is_byte; lia.
Defined.

(** ** The balance string *)

Lemma balance_loop_length (n : nat) (bits : Z) :
  List.length (balance_loop n bits) = n.
Proof. revert bits. induction n; intros; simpl; auto. Qed.

Lemma balance_loop_chars (n : nat) (bits : Z) :
  Forall is_bit_char (balance_loop n bits).
Proof.
  revert bits. induction n as [| n IH]; intros bits; simpl; constructor.
  - unfold is_bit_char. destruct (Z.land bits 1 =? 0); simpl; auto.
  - apply IH.
Qed.

Lemma land_1_testbit (bits : Z) :
  negb (Z.land bits 1 =? 0) = Z.testbit bits 0.
Proof.
  change 1 with (Z.ones 1). rewrite Z.land_ones by lia.
  change (2 ^ 1) with 2. rewrite <- Z.bit0_mod.
  now destruct (Z.testbit bits 0).
Qed.

(** Character [i] of the loop's output shows bit [i]: bit 0 comes first. *)
Lemma balance_loop_nth (n i : nat) (bits : Z) :
  (i < n)%nat ->
  nth i (balance_loop n bits) NUL
  = if Z.testbit bits (Z.of_nat i) then "1"%char else "0"%char.
Proof.
  revert i bits. induction n as [| n IH]; intros i bits Hi; [lia |].
  destruct i as [| i]; cbn [balance_loop nth].
  - now rewrite land_1_testbit.
  - rewrite IH by lia. rewrite Z.shiftr_spec by lia.
    now replace (Z.of_nat i + 1) with (Z.of_nat (S i)) by lia.
Qed.

Lemma balance_eq (buf : list ascii) (data : Status_t) :
  let n := Z.to_nat (Z.min (cells data) 32) in
  balance buf data
  = balance_loop n (balance_bits data) ++ NUL :: skipn (n + 1) buf.
Proof.
  intros n. unfold balance, overwrite, sizeof_balanceStr. fold (balance_bits data).
  replace (Z.to_nat (if cells data <? 33 then cells data else 33 - 1)) with n
    by (subst n; destruct (Z.ltb_spec (cells data) 33); lia).
  rewrite length_app, balance_loop_length, <- app_assoc. reflexivity.
Qed.

Lemma c_str_terminated (l rest : list ascii) :
  Forall is_bit_char l ->
  c_str (l ++ NUL :: rest) = String.string_of_list_ascii l.
Proof.
  induction 1 as [| c l Hc _ IH]; simpl; [reflexivity |].
  rewrite IH. destruct Hc as [-> | ->]; reflexivity.
Qed.

Lemma length_string_of_list (l : list ascii) :
  String.length (String.string_of_list_ascii l) = List.length l.
Proof. induction l; simpl; congruence. Qed.

Lemma balance_c_str (buf : list ascii) (data : Status_t) :
  c_str (balance buf data)
  = String.string_of_list_ascii
      (balance_loop (Z.to_nat (Z.min (cells data) 32)) (balance_bits data)).
Proof.
  rewrite balance_eq. cbv zeta.
  apply c_str_terminated, balance_loop_chars.
Qed.

(** C8. A status record with 4 cells, [balanceLow] 0b0101 and [balanceHigh] 0
    renders as "1010", whatever the buffer held before: bit 0 of the bitmap
    is the first character. *)
Theorem balance_example (buf : list ascii) (data : Status_t) :
  cells data = 4 ->
  balanceLow data = 5 ->
  balanceHigh data = 0 ->
  c_str (balance buf data) = "1010"%string.
Proof.
  intros Hc Hl Hh. rewrite balance_c_str. unfold balance_bits.
  rewrite Hc, Hl, Hh. reflexivity.
Qed.

Lemma balance_example_witness :
  c_str (balance (repeat "x"%char 33) (mkStatus 13200 0 0 0 0 0 5 0 0 4 [0; 3]))
  = "1010"%string.
Proof.
  apply (balance_example (repeat "x"%char 33)
           (mkStatus 13200 0 0 0 0 0 5 0 0 4 [0; 3])); reflexivity.
Defined.

(** C10. For every status record the string [balance] returns has
    min(cells, 32) characters, each '0' or '1', and the NUL that ends it is
    in the buffer right behind them: a cell count above 32 gives 32
    characters, and the 33 bytes of the buffer are never exceeded.  Character
    [i] shows bit [i] of the bitmap. *)
Theorem balance_string_shape (buf : list ascii) (data : Status_t) :
  let s := c_str (balance buf data) in
  let n := Z.to_nat (Z.min (cells data) 32) in
  String.length s = n
  /\ Forall is_bit_char (String.list_ascii_of_string s)
  /\ nth n (balance buf data) "x"%char = NUL
  /\ (n <= 32)%nat
  /\ (List.length buf = 33%nat -> List.length (balance buf data) = 33%nat)
  /\ forall i, (i < n)%nat ->
       nth i (String.list_ascii_of_string s) NUL
       = if Z.testbit (balance_bits data) (Z.of_nat i)
         then "1"%char else "0"%char.
Proof.
  intros s n. subst s. rewrite balance_c_str. fold n.
  rewrite length_string_of_list, String.list_ascii_of_string_of_list_ascii,
    balance_loop_length.
  split; [reflexivity |]. split; [apply balance_loop_chars |].
  split; [| split; [lia | split]].
  - rewrite balance_eq. fold n.
    rewrite app_nth2; rewrite balance_loop_length; [| lia].
    now rewrite Nat.sub_diag.
  - intros Hbuf. rewrite balance_eq. fold n.
    rewrite length_app, balance_loop_length. cbn [List.length].
    rewrite length_skipn. lia.
  - intros i Hi. now apply balance_loop_nth.
Qed.

(** ** Short reads and the decoding of records *)

Lemma execute_short_read (self : JbdBms) (header : request_header_t)
    (cmd result : ptr) (w : World) :
  short_read (rx w) = true ->
  fst (value (execute self header cmd result w)) = false.
Proof.
  intros Hs.
  destruct (Z.eq_dec (genCrc (command header) (length header) cmd) 0) as [E | E].
  - now rewrite execute_rejected.
  - apply encodes_crc in E.
    destruct (execute_verdict self header cmd result w E)
      as (tx_ok & w2 & Hrx & _ & ->).
    rewrite read_response_short by (now rewrite Hrx).
    apply andb_false_r.
Qed.

Section ReadOperations.

Variables READ STATUS CELLS HARDWARE : Z.
Variable self : JbdBms.

Lemma getStatus_eq (data : Status_t) (w : World) :
  value (getStatus READ STATUS self data w)
  = (fst (value (execute self (mkRequest 0 READ STATUS 0) None
                   (Some (Status_image data)) w)),
     host_order (status_left_by_execute READ STATUS self data w)).
Proof.
  unfold getStatus, status_left_by_execute, bind.
  destruct (execute _ _ _ _ w) as [[[rc p] w'] e]. reflexivity.
Qed.

Lemma getCells_eq (data : Cells_t) (w : World) :
  value (getCells READ CELLS self data w)
  = (fst (value (execute self (mkRequest 0 READ CELLS 0) None
                   (Some (Cells_image data)) w)),
     mkCells (map swap (voltages (cells_left_by_execute READ CELLS self data w)))).
Proof.
  unfold getCells, cells_left_by_execute, bind.
  destruct (execute _ _ _ _ w) as [[[rc p] w'] e]. reflexivity.
Qed.

Lemma getHardware_eq (data : Hardware_t) (w : World) :
  fst (value (getHardware READ HARDWARE self data w))
  = fst (value (execute self (mkRequest 0 READ HARDWARE 0) None (Some data) w)).
Proof.
  unfold getHardware, bind.
  destruct (execute _ _ _ _ w) as [[[rc p] w'] e]. reflexivity.
Qed.

(** C4, amended.  When the stream yields fewer bytes than the frame its
    header declares, the transaction fails and [getStatus], [getCells] and
    [getHardware] return false; [getStatus] and [getCells] convert the
    16-bit fields of the record all the same, whatever the transaction
    left in it. *)
Theorem short_read_fails (sdata : Status_t) (cdata : Cells_t)
    (hdata : Hardware_t) (w : World) :
  short_read (rx w) = true ->
  fst (value (getStatus READ STATUS self sdata w)) = false
  /\ fst (value (getCells READ CELLS self cdata w)) = false
  /\ fst (value (getHardware READ HARDWARE self hdata w)) = false
  /\ snd (value (getStatus READ STATUS self sdata w))
     = host_order (status_left_by_execute READ STATUS self sdata w)
  /\ voltages (snd (value (getCells READ CELLS self cdata w)))
     = map swap (voltages (cells_left_by_execute READ CELLS self cdata w)).
Proof.
  intros Hs.
  rewrite getStatus_eq, getCells_eq, getHardware_eq. cbn [fst snd voltages].
  rewrite !execute_short_read by exact Hs. auto.
Qed.

End ReadOperations.

(** C4, counterexample.  The header declares 4 payload bytes and the stream
    has one: [getStatus] fails, and the voltage the transaction left as
    0x01AA comes back as 0xAA01. *)
Lemma short_read_still_decoded :
  short_read [221; 0; 4; 170] = true
  /\ ~ fails_without_decoding 165 3 (mkJbdBms 10 (-1) false)
         (mkStatus 258 0 0 0 0 0 0 0 0 0 [])
         (mkWorld 1000 995 [221; 0; 4; 170] 100).
Proof.
  split; [reflexivity |].
  unfold fails_without_decoding. intros [_ H].
  apply (f_equal voltage) in H. vm_compute in H. discriminate.
Qed.

Lemma short_read_fails_witness :
  let self := mkJbdBms 10 4 true in
  let sdata := mkStatus 258 0 0 0 0 0 0 0 0 0 [] in
  let cdata := mkCells [258; 0] in
  let w := mkWorld 1000 995 [221; 0; 4; 170] 100 in
  fst (value (getStatus 165 3 self sdata w)) = false
  /\ fst (value (getCells 165 4 self cdata w)) = false
  /\ fst (value (getHardware 165 5 self [1; 2; 3] w)) = false
  /\ snd (value (getStatus 165 3 self sdata w))
     = host_order (status_left_by_execute 165 3 self sdata w)
  /\ voltages (snd (value (getCells 165 4 self cdata w)))
     = map swap (voltages (cells_left_by_execute 165 4 self cdata w)).
Proof.
  apply (short_read_fails 165 3 4 5 (mkJbdBms 10 4 true)
           (mkStatus 258 0 0 0 0 0 0 0 0 0 []) (mkCells [258; 0]) [1; 2; 3]
           (mkWorld 1000 995 [221; 0; 4; 170] 100)).
  reflexivity.
Defined.

Lemma balance_string_shape_witness :
  let data := mkStatus 0 0 0 0 0 0 43690 1 0 40 [] in
  let buf := repeat "x"%char 33 in
  String.length (c_str (balance buf data)) = 32%nat
  /\ List.length (balance buf data) = 33%nat
  /\ nth 32 (balance buf data) "x"%char = NUL.
Proof.
  pose proof (balance_string_shape (repeat "x"%char 33)
                (mkStatus 0 0 0 0 0 0 43690 1 0 40 [])) as H.
  cbv zeta in H. destruct H as (H1 & _ & H3 & _ & H5 & _).
  split; [exact H1 |]. split; [apply H5; reflexivity | exact H3].
Defined.

(** * Further properties *)

(** ** The sending half *)

(** The calls of [transmit], in order: the pin goes high, the stream is
    flushed, the buffers are written, the stream is flushed, the pin goes
    low.  The writes stop at the first one the stream does not take whole. *)
Lemma transmit_trace self h c crc stop w :
  exists rc room evs,
    transmit self h c crc stop w
    = (rc, mkWorld (clock w) (prev_cell w) (rx w) room, evs)
    /\ evs = pin_events self true ++ Flush :: filter is_write evs
             ++ Flush :: pin_events self false
    /\ ((tx_room w < 4 + Z.to_nat (length h) + 3)%nat -> rc = false)
    /\ (0 <= length h ->
        (4 + Z.to_nat (length h) + 3 <= tx_room w)%nat ->
        rc = true
        /\ filter is_write evs
           = [Write (request_bytes h) 4;
              Write (read_mem (Z.to_nat (length h)) (deref c))
                    (Z.to_nat (length h));
              Write (u16_bytes crc) 2;
              Write [stop] 1]).
Proof.
  unfold transmit, and_then, write_all, serial_write,
    serial_flush, digitalWrite, ret, bind, pin_events.
  rewrite !read_mem_length.
  cbn [List.length request_bytes u16_bytes sizeof_request_header].
  split_run.
  all: repeat match goal with
         | H : (_ =? _) = _ |- _ =>
             first [apply Z.eqb_eq in H | apply Z.eqb_neq in H]
         end.
  all: unfold sizeof_request_header in *.
  all: do 3 eexists; split; [reflexivity |].
  all: cbn [app filter is_write].
  all: split; [reflexivity |].
  all: split; intros.
  all: try reflexivity; try (exfalso; lia); try (apply Z.eqb_neq; lia).
  all: split; [first [reflexivity | apply Z.eqb_eq; lia] |].
  all: repeat f_equal; lia.
Qed.

(** A transaction whose request encodes and is taken whole by the stream:
    pacing, the request, the reading of the response, the observer, and the
    timestamp. *)
Lemma execute_transmitted self h c r w :
  encodes h c ->
  0 <= length h ->
  (4 + Z.to_nat (length h) + 3 <= tx_room w)%nat ->
  execute self h c r w =
    let w1 := world (pace self w) in
    let w2 := mkWorld (clock w1) (prev_cell w) (rx w)
                      (tx_room w - (4 + Z.to_nat (length h) + 3)) in
    let '(rc, l, w3, e3) :=
      read_response (mkLocals (mkResponse 0 0 0) r
                       (genCrc (command h) (length h) c) 119) w2 in
    ((rc, l_result l),
     mkWorld (clock w3) (clock w3) (rx w3) (tx_room w3),
     events (pace self w) ++ request_events self h c ++ e3
     ++ observer_events self l).
Proof.
  intros Henc Hlen Hroom. pose proof Henc as Hcrc. apply encodes_crc in Hcrc.
  rewrite (execute_sent self h c r w Hcrc). cbv zeta.
  destruct (pace_shape self w) as (Hp & Hrx & Hrm & _).
  destruct (pace self w) as [[u w1] e1]. cbn [world events fst snd] in *.
  destruct (transmit_trace self
              (mkRequest 221 (command h) (code h) (length h)) c
              (genCrc (command h) (length h) c) 119 w1)
    as (rc & room & evs & Etx & Hev & _ & Hok).
  cbn [length] in Hok. rewrite Hrm in Hok.
  destruct (Hok Hlen Hroom) as [-> Hwr].
  rewrite Etx. rewrite Hwr in Hev.
  unfold receive, bind. rewrite Hp, Hrx.
  replace room with (tx_room w - (4 + Z.to_nat (length h) + 3))%nat.
  2:{ pose proof (transmit_shape self
              (mkRequest 221 (command h) (code h) (length h)) c
              (genCrc (command h) (length h) c) 119 w1)
        as (rc' & room' & evs' & Etx' & _ & _ & _ & Hok').
      rewrite Etx in Etx'. inversion Etx'; subst.
      cbn [length] in Hok'. rewrite Hrm in Hok'.
      destruct (Hok' Hlen Hroom) as [_ ->]. reflexivity. }
  destruct (read_response _ _) as [[[rc l] w3] e3].
  unfold observer_events, serial_cb, ret.
  rewrite Hev. unfold request_events. cbn [request_bytes start command code length].
  destruct (_serial_cb self); cbn [app fst snd clock rx tx_room];
    rewrite ?app_nil_r, <- ?app_assoc; reflexivity.
Qed.

(** ** The receiving half *)

Lemma read_payload_stored l w payload tail :
  rx w = payload ++ tail ->
  Z.of_nat (List.length payload) = rsp_length (l_header l) ->
  payload = [] \/ l_result l <> None ->
  read_payload l w
  = ((true, mkLocals (l_header l) (store_payload (l_result l) payload)
                     (l_crc l) (l_stop l)),
     mkWorld (clock w) (prev_cell w) tail (tx_room w),
     if rsp_length (l_header l) =? 0 then []
     else [ReadBytes (Z.to_nat (rsp_length (l_header l))) payload]).
Proof.
  intros Hrx Hlen Hres. unfold read_payload.
  destruct (rsp_length (l_header l) =? 0) eqn:E0.
  - apply Z.eqb_eq in E0.
    destruct payload; [| simpl in Hlen; lia].
    destruct l, w; cbn in *. subst. reflexivity.
  - apply Z.eqb_neq in E0.
    destruct payload as [| b payload]; [simpl in Hlen; lia |].
    destruct Hres as [Hres | Hres]; [discriminate |].
    destruct (l_result l) as [m |]; [| congruence].
    unfold bind, serial_readBytes, ret. rewrite Hrx, <- Hlen.
    rewrite Nat2Z.id, firstn_exact, skipn_exact, Z.eqb_refl.
    reflexivity.
Qed.

(** A frame that arrives whole, with the right start marker and a length
    within bounds, is read to its end; the verdict is left to the checksum
    and the status byte. *)
Lemma read_response_complete l w s rcode n payload c0 c1 stopb rest :
  rx w = s :: rcode :: n :: payload ++ c0 :: c1 :: stopb :: rest ->
  Z.of_nat (List.length payload) = n ->
  payload = [] \/ l_result l <> None ->
  s = 221 -> n <= 64 ->
  read_response l w
  = ((isValid (mkResponse s rcode n) (store_payload (l_result l) payload)
              (u16_of_bytes [c0; c1])
      && (rcode =? 0),
      mkLocals (mkResponse s rcode n) (store_payload (l_result l) payload)
               (u16_of_bytes [c0; c1]) stopb),
     mkWorld (clock w) (prev_cell w) rest (tx_room w),
     frame_reads s rcode n payload c0 c1 stopb).
Proof.
  intros Hrx Hlen Hres Hs Hn. unfold read_response.
  rewrite !and_then_check.
  pose proof (read_header_frame l w s rcode n _ Hrx) as E1.
  assert (E2 : (read_header
                &&& check (fun l => (rsp_start (l_header l) =? 221)
                                    && (rsp_length (l_header l) <=? 64)))%jbd l w
               = ((true, mkLocals (mkResponse s rcode n) (l_result l)
                                  (l_crc l) (l_stop l)),
                  mkWorld (clock w) (prev_cell w)
                          (payload ++ c0 :: c1 :: stopb :: rest) (tx_room w),
                  [ReadBytes 3 [s; rcode; n]])).
  { rewrite and_then_check, E1. cbn.
    replace (s =? 221) with true by (symmetry; apply Z.eqb_eq; exact Hs).
    replace (n <=? 64) with true by (symmetry; apply Z.leb_le; exact Hn).
    reflexivity. }
  pose proof (and_then_true _ read_payload _ _ _ _ _ E2) as E4.
  rewrite (read_payload_stored _ _ payload (c0 :: c1 :: stopb :: rest)) in E4;
    [| reflexivity | exact Hlen | exact Hres].
  pose proof (and_then_true _ read_crc _ _ _ _ _ E4) as E5.
  erewrite read_crc_frame in E5 by reflexivity.
  pose proof (and_then_true _ read_stop _ _ _ _ _ E5) as E6.
  erewrite read_stop_frame in E6 by reflexivity.
  rewrite E6. cbn. unfold frame_reads.
  rewrite <- !app_assoc. reflexivity.
Qed.

(** A wrong start marker or a declared length above 64 ends the reading
    after the header; what follows stays in the stream. *)
Lemma read_response_bad_header l w s rcode n tail :
  rx w = s :: rcode :: n :: tail ->
  s <> 221 \/ 64 < n ->
  read_response l w
  = ((false, mkLocals (mkResponse s rcode n) (l_result l) (l_crc l) (l_stop l)),
     mkWorld (clock w) (prev_cell w) tail (tx_room w),
     [ReadBytes 3 [s; rcode; n]]).
Proof.
  intros Hrx Hbad. unfold read_response.
  rewrite !and_then_check.
  pose proof (read_header_frame l w s rcode n _ Hrx) as E1.
  assert (E2 : (read_header
                &&& check (fun l => (rsp_start (l_header l) =? 221)
                                    && (rsp_length (l_header l) <=? 64)))%jbd l w
               = ((false, mkLocals (mkResponse s rcode n) (l_result l)
                                   (l_crc l) (l_stop l)),
                  mkWorld (clock w) (prev_cell w) tail (tx_room w),
                  [ReadBytes 3 [s; rcode; n]])).
  { rewrite and_then_check, E1. cbn.
    destruct Hbad as [H | H].
    - replace (s =? 221) with false by (symmetry; apply Z.eqb_neq; exact H).
      reflexivity.
    - replace (n <=? 64) with false by (symmetry; apply Z.leb_gt; exact H).
      now rewrite andb_false_r. }
  rewrite (and_then_false _ _ _ _ _ _ _ (and_then_false _ _ _ _ _ _ _
            (and_then_false _ _ _ _ _ _ _ E2))).
  reflexivity.
Qed.

(** A payload is declared and there is no buffer for it: the reading ends
    after the header. *)
Lemma read_response_no_buffer l w rcode n tail :
  rx w = 221 :: rcode :: n :: tail ->
  n <> 0 -> n <= 64 ->
  l_result l = None ->
  read_response l w
  = ((false, mkLocals (mkResponse 221 rcode n) None (l_crc l) (l_stop l)),
     mkWorld (clock w) (prev_cell w) tail (tx_room w),
     [ReadBytes 3 [221; rcode; n]]).
Proof.
  intros Hrx Hn0 Hn Hres. unfold read_response.
  rewrite !and_then_check.
  pose proof (read_header_frame l w 221 rcode n _ Hrx) as E1.
  assert (E2 : (read_header
                &&& check (fun l => (rsp_start (l_header l) =? 221)
                                    && (rsp_length (l_header l) <=? 64)))%jbd l w
               = ((true, mkLocals (mkResponse 221 rcode n) None
                                  (l_crc l) (l_stop l)),
                  mkWorld (clock w) (prev_cell w) tail (tx_room w),
                  [ReadBytes 3 [221; rcode; n]])).
  { rewrite and_then_check, E1, Hres. cbn.
    replace (n <=? 64) with true by (symmetry; apply Z.leb_le; exact Hn).
    reflexivity. }
  assert (E3 : ((read_header
                &&& check (fun l => (rsp_start (l_header l) =? 221)
                                    && (rsp_length (l_header l) <=? 64)))
                &&& read_payload)%jbd l w
               = ((false, mkLocals (mkResponse 221 rcode n) None
                                   (l_crc l) (l_stop l)),
                  mkWorld (clock w) (prev_cell w) tail (tx_room w),
                  [ReadBytes 3 [221; rcode; n]])).
  { rewrite (and_then_true _ _ _ _ _ _ _ E2). unfold read_payload.
    cbn [l_header rsp_length l_result].
    replace (n =? 0) with false by (symmetry; apply Z.eqb_neq; exact Hn0).
    reflexivity. }
  rewrite (and_then_false _ _ _ _ _ _ _ (and_then_false _ _ _ _ _ _ _ E3)).
  reflexivity.
Qed.

Lemma genCrc_same_payload (byte len : Z) (payload : list Z) (d1 d2 : ptr) :
  holds d1 payload -> holds d2 payload ->
  Z.of_nat (List.length payload) = len ->
  genCrc byte len d1 = genCrc byte len d2.
Proof.
  intros H1 H2 Hlen. destruct (Z_lt_le_dec len 31) as [Hlt | Hge].
  - rewrite (genCrc_holds byte len d1 payload), (genCrc_holds byte len d2 payload)
      by assumption. reflexivity.
  - rewrite !genCrc_rejects by (left; assumption). reflexivity.
Qed.

Lemma store_payload_holds (result : ptr) (payload : list Z) :
  payload = [] \/ result <> None ->
  holds (store_payload result payload) payload.
Proof.
  intros H. destruct payload as [| b payload].
  - destruct result as [m |]; cbn; [exists m |]; reflexivity.
  - destruct H as [H | H]; [discriminate |].
    destruct result as [m |]; [| congruence].
    cbn. unfold overwrite. eexists. reflexivity.
Qed.

Lemma reads_app e1 e2 : reads (e1 ++ e2) = reads e1 ++ reads e2.
Proof.
  induction e1 as [| e e1 IH]; simpl; [reflexivity |].
  destruct e; rewrite ?IH; reflexivity.
Qed.

Lemma pin_writes_app e1 e2 : pin_writes (e1 ++ e2) = pin_writes e1 ++ pin_writes e2.
Proof.
  induction e1 as [| e e1 IH]; simpl; [reflexivity |].
  destruct e; rewrite ?IH; reflexivity.
Qed.

Lemma callbacks_app e1 e2 : callbacks (e1 ++ e2) = callbacks e1 ++ callbacks e2.
Proof.
  induction e1 as [| e e1 IH]; simpl; [reflexivity |].
  destruct e; rewrite ?IH; reflexivity.
Qed.

Lemma pace_events self w :
  events (pace self w) = []
  \/ exists ms, events (pace self w) = [Delay ms] /\ 0 <= ms <= _delay self.
Proof.
  rewrite pace_eq. cbv zeta.
  destruct (_ <=? _) eqn:E; cbn; [right | left; reflexivity].
  eexists. split; [reflexivity |]. apply Z.leb_le in E. split; [| exact E].
  apply Z.mod_pos_bound. lia.
Qed.

Lemma pace_quiet self w :
  reads (events (pace self w)) = []
  /\ pin_writes (events (pace self w)) = []
  /\ callbacks (events (pace self w)) = []
  /\ writes (events (pace self w)) = [].
Proof.
  destruct (pace_events self w) as [-> | (ms & -> & _)]; cbn; auto.
Qed.

Lemma pin_events_quiet self high :
  reads (pin_events self high) = []
  /\ callbacks (pin_events self high) = []
  /\ writes (pin_events self high) = []
  /\ slept (pin_events self high) = 0.
Proof. unfold pin_events. destruct (_ <=? _); cbn; auto. Qed.

Lemma frame_reads_quiet s rcode n payload c0 c1 stopb :
  pin_writes (frame_reads s rcode n payload c0 c1 stopb) = []
  /\ callbacks (frame_reads s rcode n payload c0 c1 stopb) = []
  /\ writes (frame_reads s rcode n payload c0 c1 stopb) = []
  /\ slept (frame_reads s rcode n payload c0 c1 stopb) = 0.
Proof. unfold frame_reads. destruct (n =? 0); cbn; auto. Qed.

Lemma observer_events_quiet self l :
  pin_writes (observer_events self l) = []
  /\ reads (observer_events self l) = []
  /\ writes (observer_events self l) = []
  /\ slept (observer_events self l) = 0.
Proof. unfold observer_events. destruct (_serial_cb self); cbn; auto. Qed.

(** ** Whole transactions, continued *)

(** A complete frame with the right start marker and a declared length
    of at most 64 that fits the caller's buffer: the payload is in the
    buffer afterwards and the frame is gone from the stream, whether the
    frame is accepted or not; it is accepted when checksum and status say
    so. *)
Lemma execute_complete_frame (self : JbdBms) (header : request_header_t)
    (cmd result : ptr) (w : World)
    (rcode n : Z) (payload : list Z) (c0 c1 stopb : Z) (rest : list Z) :
  encodes header cmd ->
  0 <= length header ->
  (4 + Z.to_nat (length header) + 3 <= tx_room w)%nat ->
  rx w = 221 :: rcode :: n :: payload ++ c0 :: c1 :: stopb :: rest ->
  Z.of_nat (List.length payload) = n ->
  n <= 64 ->
  payload = [] \/ (exists buf, result = Some buf
                               /\ (List.length payload <= List.length buf)%nat) ->
  let r := execute self header cmd result w in
  value r = ((genCrc rcode n (Some payload) =? u16_of_bytes [c0; c1])
             && (rcode =? 0),
             store_payload result payload)
  /\ holds (snd (value r)) payload
  /\ List.length (deref (snd (value r))) = List.length (deref result)
  /\ rx (world r) = rest
  /\ reads (events r)
     = reads (frame_reads 221 rcode n payload c0 c1 stopb).
Proof.
  intros Henc Hlen Hroom Hrx Hn Hn64 Hbuf r. subst r.
  assert (Hres : payload = [] \/ result <> None).
  { destruct Hbuf as [H | (buf & -> & _)]; [now left | right; discriminate]. }
  rewrite (execute_transmitted self header cmd result w Henc Hlen Hroom).
  cbv zeta.
  rewrite (read_response_complete _ _ 221 rcode n payload c0 c1 stopb rest);
    [| exact Hrx | exact Hn | exact Hres | reflexivity | exact Hn64].
  cbn [value world events fst snd rx l_result].
  split; [| split; [| split; [| split]]].
  - f_equal. unfold isValid, genResponseCrc. cbn [returncode rsp_length].
    rewrite (genCrc_same_payload rcode n payload
               (store_payload result payload) (Some payload));
      [reflexivity | now apply store_payload_holds
       | exists []; now rewrite app_nil_r | exact Hn].
  - now apply store_payload_holds.
  - destruct Hbuf as [-> | (buf & -> & Hfit)].
    + destruct result; reflexivity.
    + destruct payload as [| b payload]; [reflexivity |].
      cbn [store_payload deref]. unfold overwrite.
      rewrite length_app, length_skipn. lia.
  - reflexivity.
  - destruct (pace_quiet self w) as (Hr & _).
    destruct (pin_events_quiet self true) as (Hr1 & _).
    destruct (pin_events_quiet self false) as (Hr2 & _).
    destruct (observer_events_quiet self
                (mkLocals (mkResponse 221 rcode n)
                          (store_payload result payload)
                          (u16_of_bytes [c0; c1]) stopb)) as (_ & Hr3 & _).
    unfold request_events.
    rewrite !reads_app, Hr, Hr1, Hr2, Hr3. cbn [reads app].
    now rewrite app_nil_r.
Qed.

(** X1. A complete frame with the right start marker and a declared length
    of at most 64 that fits the caller's buffer: the payload is in the
    buffer afterwards and the frame is gone from the stream, whether the
    frame is accepted or not; it is accepted when checksum and status say
    so. *)
Theorem execute_stores_payload (self : JbdBms) (header : request_header_t)
    (cmd result : ptr) (w : World)
    (rcode n : Z) (payload : list Z) (c0 c1 stopb : Z) (rest : list Z) :
  encodes header cmd ->
  0 <= length header ->
  (4 + Z.to_nat (length header) + 3 <= tx_room w)%nat ->
  rx w = 221 :: rcode :: n :: payload ++ c0 :: c1 :: stopb :: rest ->
  Z.of_nat (List.length payload) = n ->
  n <= 64 ->
  payload = [] \/ (exists buf, result = Some buf
                               /\ (List.length payload <= List.length buf)%nat) ->
  let r := execute self header cmd result w in
  value r = ((genCrc rcode n (Some payload) =? u16_of_bytes [c0; c1])
             && (rcode =? 0),
             store_payload result payload)
  /\ holds (snd (value r)) payload
  /\ List.length (deref (snd (value r))) = List.length (deref result)
  /\ rx (world r) = rest
  /\ reads (events r)
     = reads (frame_reads 221 rcode n payload c0 c1 stopb).
Proof.
  intros. now apply execute_complete_frame.
Qed.

Lemma execute_stores_payload_witness :
  let r := execute (mkJbdBms 10 4 true) (mkRequest 0 165 3 0) None
             (Some [1; 2; 3; 4])
             (mkWorld 1000 995 [221; 128; 2; 170; 187; 126; 153; 119; 5] 100) in
  value r = ((genCrc 128 2 (Some [170; 187]) =? u16_of_bytes [126; 153])
             && (128 =? 0),
             store_payload (Some [1; 2; 3; 4]) [170; 187])
  /\ holds (snd (value r)) [170; 187]
  /\ List.length (deref (snd (value r))) = List.length (deref (Some [1; 2; 3; 4]))
  /\ rx (world r) = [5]
  /\ reads (events r) = reads (frame_reads 221 128 2 [170; 187] 126 153 119).
Proof.
  apply (execute_stores_payload (mkJbdBms 10 4 true) (mkRequest 0 165 3 0) None
           (Some [1; 2; 3; 4])
           (mkWorld 1000 995 [221; 128; 2; 170; 187; 126; 153; 119; 5] 100)
           128 2 [170; 187] 126 153 119 [5]).
  - reflexivity.
  - simpl; lia.
  - simpl; lia.
  - reflexivity.
  - reflexivity.
  - lia.
  - right. exists [1; 2; 3; 4]. split; [reflexivity | simpl; lia].
Defined.

(** The transaction ends after the header when the header is refused or
    a declared payload has nowhere to go. *)
Lemma execute_header_only (self : JbdBms) (header : request_header_t)
    (cmd result : ptr) (w : World) (s rcode n : Z) (tail : list Z) :
  encodes header cmd ->
  0 <= length header ->
  (4 + Z.to_nat (length header) + 3 <= tx_room w)%nat ->
  rx w = s :: rcode :: n :: tail ->
  s <> 221 \/ 64 < n \/ (n <> 0 /\ result = None) ->
  let r := execute self header cmd result w in
  value r = (false, result)
  /\ rx (world r) = tail
  /\ reads (events r) = [[s; rcode; n]].
Proof.
  intros Henc Hlen Hroom Hrx Hbad r. subst r.
  rewrite (execute_transmitted self header cmd result w Henc Hlen Hroom).
  cbv zeta.
  assert (E : read_response
                (mkLocals (mkResponse 0 0 0) result
                   (genCrc (command header) (length header) cmd) 119)
                (mkWorld (clock (world (pace self w))) (prev_cell w) (rx w)
                   (tx_room w - (4 + Z.to_nat (length header) + 3)))
              = ((false, mkLocals (mkResponse s rcode n) result
                           (genCrc (command header) (length header) cmd) 119),
                 mkWorld (clock (world (pace self w))) (prev_cell w) tail
                   (tx_room w - (4 + Z.to_nat (length header) + 3)),
                 [ReadBytes 3 [s; rcode; n]])).
  { destruct (Z.eq_dec s 221) as [Hs | Hs];
      [destruct (Z_le_gt_dec n 64) as [Hn | Hn] |].
    - destruct Hbad as [H | [H | [Hn0 ->]]]; [congruence | lia |].
      subst s.
      rewrite (read_response_no_buffer _ _ rcode n tail);
        [reflexivity | exact Hrx | exact Hn0 | exact Hn | reflexivity].
    - rewrite (read_response_bad_header _ _ s rcode n tail);
        [reflexivity | exact Hrx | right; lia].
    - rewrite (read_response_bad_header _ _ s rcode n tail);
        [reflexivity | exact Hrx | now left]. }
  rewrite E.
  cbn [value world events fst snd rx l_result].
  repeat split.
  destruct (pace_quiet self w) as (Hr & _).
  destruct (pin_events_quiet self true) as (Hr1 & _).
  destruct (pin_events_quiet self false) as (Hr2 & _).
  match goal with |- context [observer_events self ?l] =>
    destruct (observer_events_quiet self l) as (_ & Hr3 & _) end.
  unfold request_events.
  rewrite !reads_app, Hr, Hr1, Hr2, Hr3. reflexivity.
Qed.

(** X2. A response whose start marker is not 0xDD, or whose declared length
    is above 64, fails the transaction after the three header bytes: nothing
    more is read, the rest stays in the stream, and the caller's buffer is
    untouched.  The call is one whose copy for the observer stays within
    the result buffer. *)
Theorem execute_rejects_header (self : JbdBms) (header : request_header_t)
    (cmd result : ptr) (w : World) (s rcode n : Z) (tail : list Z) :
  encodes header cmd ->
  0 <= length header ->
  (4 + Z.to_nat (length header) + 3 <= tx_room w)%nat ->
  rx w = s :: rcode :: n :: tail ->
  observer_in_bounds self result (rx w) = true ->
  s <> 221 \/ 64 < n ->
  let r := execute self header cmd result w in
  value r = (false, result)
  /\ rx (world r) = tail
  /\ reads (events r) = [[s; rcode; n]].
Proof.
  intros Henc Hlen Hroom Hrx _ Hbad.
  apply (execute_header_only self header cmd result w s rcode n tail);
    try assumption.
  tauto.
Qed.

Lemma execute_rejects_header_witness :
  let r := execute (mkJbdBms 10 4 true) (mkRequest 0 165 3 0) None
             (Some (repeat 1 70))
             (mkWorld 1000 995 [221; 0; 65; 9; 9; 9] 100) in
  value r = (false, Some (repeat 1 70))
  /\ rx (world r) = [9; 9; 9]
  /\ reads (events r) = [[221; 0; 65]].
Proof.
  apply (execute_rejects_header (mkJbdBms 10 4 true) (mkRequest 0 165 3 0) None
           (Some (repeat 1 70)) (mkWorld 1000 995 [221; 0; 65; 9; 9; 9] 100)
           221 0 65 [9; 9; 9]).
  - reflexivity.
  - simpl; lia.
  - simpl; lia.
  - reflexivity.
  - reflexivity.
  - right; lia.
Defined.

(** X3. With no observer set, a response that declares a payload while the
    caller passed no buffer fails after the header, with the payload left
    in the stream.  (With an observer the source goes on to copy the
    declared number of bytes through the null pointer.) *)
Theorem execute_without_buffer (self : JbdBms) (header : request_header_t)
    (cmd : ptr) (w : World) (rcode n : Z) (tail : list Z) :
  encodes header cmd ->
  0 <= length header ->
  (4 + Z.to_nat (length header) + 3 <= tx_room w)%nat ->
  rx w = 221 :: rcode :: n :: tail ->
  n <> 0 ->
  _serial_cb self = false ->
  let r := execute self header cmd None w in
  value r = (false, None)
  /\ rx (world r) = tail
  /\ reads (events r) = [[221; rcode; n]].
Proof.
  intros Henc Hlen Hroom Hrx Hn0 _.
  apply (execute_header_only self header cmd None w 221 rcode n tail);
    try assumption.
  right. right. now split.
Qed.

Lemma execute_without_buffer_witness :
  let r := execute (mkJbdBms 10 4 false) (mkRequest 0 90 225 2) (Some [0; 2])
             None (mkWorld 1000 995 [221; 0; 2; 7; 7; 0; 0; 119] 100) in
  value r = (false, None)
  /\ rx (world r) = [7; 7; 0; 0; 119]
  /\ reads (events r) = [[221; 0; 2]].
Proof.
  apply (execute_without_buffer (mkJbdBms 10 4 false) (mkRequest 0 90 225 2)
           (Some [0; 2]) (mkWorld 1000 995 [221; 0; 2; 7; 7; 0; 0; 119] 100)
           0 2 [7; 7; 0; 0; 119]).
  - reflexivity.
  - simpl; lia.
  - simpl; lia.
  - reflexivity.
  - lia.
  - reflexivity.
Defined.

Lemma only_reads_and_then a b :
  only_reads a -> only_reads b -> only_reads (a &&& b)%jbd.
Proof.
  intros Ha Hb l w. specialize (Ha l w). unfold and_then, bind.
  destruct (a l w) as [[[ok l1] w1] e1]. cbn in Ha.
  destruct ok.
  - specialize (Hb l1 w1). destruct (b l1 w1) as [[[ok2 l2] w2] e2].
    cbn in *. rewrite forallb_app, Ha, Hb. reflexivity.
  - cbn. now rewrite app_nil_r.
Qed.

Lemma only_reads_read_response : only_reads read_response.
Proof.
  unfold read_response.
  repeat apply only_reads_and_then; intros l w; try reflexivity.
  unfold read_payload. destruct (_ =? 0); [reflexivity |].
  destruct (l_result l); reflexivity.
Qed.

Lemma reads_only_quiet evs :
  forallb is_read evs = true ->
  pin_writes evs = [] /\ writes evs = [] /\ callbacks evs = [] /\ slept evs = 0.
Proof.
  induction evs as [| e evs IH]; cbn; [auto |].
  destruct e; cbn; try discriminate. exact IH.
Qed.

Lemma writes_only_quiet evs :
  forallb is_write evs = true ->
  pin_writes evs = [] /\ reads evs = [] /\ callbacks evs = [] /\ slept evs = 0.
Proof.
  induction evs as [| e evs IH]; cbn; [auto |].
  destruct e; cbn; try discriminate. exact IH.
Qed.

Lemma forallb_filter_write evs : forallb is_write (filter is_write evs) = true.
Proof.
  induction evs as [| e evs IH]; cbn; [reflexivity |].
  destruct (is_write e) eqn:E; cbn; [now rewrite E |]. exact IH.
Qed.

(** The observer's call comes last and is the only one. *)
Lemma receive_trace self result crc stop w :
  exists rd,
    events (receive self result crc stop w)
    = rd ++ observer_events self
              (snd (value (read_response
                             (mkLocals (mkResponse 0 0 0) result crc stop) w)))
    /\ forallb is_read rd = true.
Proof.
  unfold receive, bind.
  pose proof (only_reads_read_response
                (mkLocals (mkResponse 0 0 0) result crc stop) w) as Hr.
  destruct (read_response _ w) as [[[rc l] w1] e1]. cbn in Hr.
  exists e1. split; [| exact Hr].
  unfold observer_events, serial_cb, ret.
  destruct (_serial_cb self); cbn; now rewrite ?app_nil_r.
Qed.

(** Every transaction that is sent, whatever the stream does. *)
Lemma execute_sent_trace self h c r w :
  encodes h c ->
  exists wr rd,
    events (execute self h c r w)
    = events (pace self w)
      ++ pin_events self true ++ Flush :: wr ++ Flush :: pin_events self false
      ++ rd
    /\ forallb is_write wr = true
    /\ pin_writes rd = [] /\ writes rd = [] /\ slept rd = 0
    /\ ((tx_room w < 4 + Z.to_nat (length h) + 3)%nat ->
        rd = []
        /\ value (execute self h c r w) = (false, r)
        /\ rx (world (execute self h c r w)) = rx w).
Proof.
  intros Henc. apply encodes_crc in Henc.
  rewrite (execute_sent self h c r w Henc). cbv zeta.
  destruct (pace_shape self w) as (_ & Hrx & Hrm & _).
  destruct (pace self w) as [[u w1] e1]. cbn [world events fst snd] in *.
  destruct (transmit_trace self
              (mkRequest 221 (command h) (code h) (length h)) c
              (genCrc (command h) (length h) c) 119 w1)
    as (rc & room & evs & Etx & Hev & Hfail & _).
  cbn [length] in Hfail. rewrite Hrm in Hfail.
  rewrite Etx.
  set (F := filter is_write evs) in *.
  assert (HF : forallb is_write F = true) by apply forallb_filter_write.
  clearbody F. exists F. subst evs.
  destruct rc.
  - destruct (receive_trace self r (genCrc (command h) (length h) c) 119
                (mkWorld (clock w1) (prev_cell w1) (rx w1) room))
      as (rd & Hrd & Hkind).
    destruct (receive _ _ _ _ _) as [[[rc' res] w3] e3].
    cbn [events snd] in Hrd.
    exists e3. cbn [events snd value fst]. split.
    + rewrite <- !app_assoc. cbn [app]. rewrite <- !app_assoc. reflexivity.
    + split; [exact HF |].
      rewrite Hrd, pin_writes_app, writes_app, slept_app.
      destruct (reads_only_quiet rd Hkind) as (-> & -> & _ & ->).
      match goal with |- context [observer_events self ?l] =>
        destruct (observer_events_quiet self l) as (-> & _ & -> & ->) end.
      cbn [app]. do 3 (split; [reflexivity |]).
      intros Hlt. specialize (Hfail Hlt). discriminate.
  - exists []. cbn [ret events snd value fst world rx]. split.
    + rewrite !app_nil_r. reflexivity.
    + split; [exact HF |]. cbn [pin_writes writes slept].
      do 3 (split; [reflexivity |]). intros _. auto.
Qed.

(** X4. When the stream does not take the whole request, the transaction
    fails without reading anything: the caller's buffer and the stream's
    input are untouched, the observer is not called, the pin is back low,
    and the timestamp is set all the same. *)
Theorem execute_short_write (self : JbdBms) (header : request_header_t)
    (cmd result : ptr) (w : World) :
  encodes header cmd ->
  (tx_room w < 4 + Z.to_nat (length header) + 3)%nat ->
  let r := execute self header cmd result w in
  value r = (false, result)
  /\ rx (world r) = rx w
  /\ reads (events r) = []
  /\ callbacks (events r) = []
  /\ pin_writes (events r)
     = (if 0 <=? _dir_pin self
        then [(_dir_pin self, true); (_dir_pin self, false)] else [])
  /\ prev_cell (world r) = clock (world r).
Proof.
  intros Henc Hroom r. subst r.
  destruct (execute_sent_trace self header cmd result w Henc)
    as (wr & rd & Hev & Hwr & _ & _ & _ & Hfail).
  destruct (Hfail Hroom) as (-> & Hv & Hrx).
  destruct (execute_trace self header cmd result w Henc) as [Hts _].
  destruct (pace_quiet self w) as (Hr & Hp & Hc & _).
  destruct (writes_only_quiet wr Hwr) as (Hp2 & Hr2 & Hc2 & _).
  repeat (split; [assumption |]).
  rewrite Hev.
  rewrite !reads_app, !callbacks_app, !pin_writes_app, Hr, Hp, Hc.
  cbn [reads callbacks pin_writes app].
  rewrite !reads_app, !callbacks_app, !pin_writes_app, Hr2, Hp2, Hc2.
  cbn [reads callbacks pin_writes app].
  rewrite !reads_app, !callbacks_app, !pin_writes_app.
  unfold pin_events. destruct (0 <=? _dir_pin self); cbn; auto.
Qed.

Lemma execute_short_write_witness :
  let r := execute (mkJbdBms 10 4 true) (mkRequest 0 165 3 0) None
             (Some [1; 2]) (mkWorld 1000 995 [221; 0; 0; 0; 0; 119] 6) in
  value r = (false, Some [1; 2])
  /\ rx (world r) = [221; 0; 0; 0; 0; 119]
  /\ reads (events r) = []
  /\ callbacks (events r) = []
  /\ pin_writes (events r) = (if 0 <=? 4 then [(4, true); (4, false)] else [])
  /\ prev_cell (world r) = clock (world r).
Proof.
  apply (execute_short_write (mkJbdBms 10 4 true) (mkRequest 0 165 3 0) None
           (Some [1; 2]) (mkWorld 1000 995 [221; 0; 0; 0; 0; 119] 6)).
  - reflexivity.
  - simpl; lia.
Defined.

(** X5. The direction pin of a transaction that is sent: high before the
    first write, low after the last write and the flush, before anything is
    read; it ends low whatever the stream does, and without a pin no pin is
    written. *)
Theorem execute_direction_pin (self : JbdBms) (header : request_header_t)
    (cmd result : ptr) (w : World) :
  encodes header cmd ->
  exists pre wr rd,
    events (execute self header cmd result w)
    = pre ++ pin_events self true ++ Flush :: wr ++ Flush
          :: pin_events self false ++ rd
    /\ writes pre = [] /\ reads pre = [] /\ pin_writes pre = []
    /\ forallb is_write wr = true
    /\ writes rd = [] /\ pin_writes rd = []
    /\ pin_writes (events (execute self header cmd result w))
       = (if 0 <=? _dir_pin self
          then [(_dir_pin self, true); (_dir_pin self, false)] else []).
Proof.
  intros Henc.
  destruct (execute_sent_trace self header cmd result w Henc)
    as (wr & rd & Hev & Hwr & Hp3 & Hw3 & _ & _).
  destruct (pace_quiet self w) as (Hr & Hp & _ & Hw).
  destruct (writes_only_quiet wr Hwr) as (Hp2 & _).
  exists (events (pace self w)), wr, rd.
  repeat (split; [assumption |]).
  rewrite Hev, !pin_writes_app, Hp. cbn [pin_writes app].
  rewrite !pin_writes_app, Hp2. cbn [pin_writes app].
  rewrite !pin_writes_app, Hp3.
  unfold pin_events. destruct (0 <=? _dir_pin self); reflexivity.
Qed.

Lemma execute_direction_pin_witness :
  exists pre wr rd,
    events (execute (mkJbdBms 10 4 true) (mkRequest 0 165 3 0) None
              (Some [1; 2]) (mkWorld 1000 995 [221; 0] 3))
    = pre ++ pin_events (mkJbdBms 10 4 true) true ++ Flush :: wr ++ Flush
          :: pin_events (mkJbdBms 10 4 true) false ++ rd
    /\ writes pre = [] /\ reads pre = [] /\ pin_writes pre = []
    /\ forallb is_write wr = true
    /\ writes rd = [] /\ pin_writes rd = []
    /\ pin_writes (events (execute (mkJbdBms 10 4 true) (mkRequest 0 165 3 0)
                             None (Some [1; 2]) (mkWorld 1000 995 [221; 0] 3)))
       = (if 0 <=? 4 then [(4, true); (4, false)] else []).
Proof.
  apply (execute_direction_pin (mkJbdBms 10 4 true) (mkRequest 0 165 3 0)
           None (Some [1; 2]) (mkWorld 1000 995 [221; 0] 3)).
  reflexivity.
Defined.

Lemma read_mem_exact (payload rest : list Z) :
  read_mem (List.length payload) (payload ++ rest) = payload.
Proof. induction payload as [| b payload IH]; cbn; [reflexivity | now rewrite IH]. Qed.

Lemma read_mem_holds (p : ptr) (payload : list Z) :
  holds p payload -> read_mem (List.length payload) (deref p) = payload.
Proof.
  destruct p as [m |]; cbn.
  - intros [rest ->]. apply read_mem_exact.
  - intros ->. reflexivity.
Qed.

Lemma u16_of_bytes_arith (lo hi : Z) (rest : list Z) :
  is_byte lo -> u16_of_bytes (lo :: hi :: rest) = lo + 256 * hi.
Proof.
  unfold is_byte. intros Hlo. cbn [u16_of_bytes].
  pose proof (Z.add_lor_land lo (Z.shiftl hi 8)) as H.
  replace (Z.land lo (Z.shiftl hi 8)) with 0 in H.
  - rewrite shiftl_8 in *. lia.
  - rewrite Z.land_comm. rewrite <- (Z.mod_small lo 256) at 1 by lia.
    rewrite <- land_255. symmetry. apply land_high_low.
Qed.

(** Two bytes read into a 16-bit object are its image again. *)
Lemma u16_bytes_of_bytes (lo hi : Z) :
  is_byte lo -> is_byte hi -> u16_bytes (u16_of_bytes [lo; hi]) = [lo; hi].
Proof.
  intros Hlo Hhi. rewrite u16_of_bytes_arith by exact Hlo.
  unfold is_byte in *. unfold u16_bytes. rewrite shiftr_8, !land_255.
  replace ((lo + 256 * hi) mod 256) with lo
    by (rewrite Z.mul_comm, Z.mod_add by lia; now rewrite Z.mod_small by lia).
  replace ((lo + 256 * hi) / 256) with hi
    by (rewrite Z.mul_comm, Z.div_add by lia; rewrite Z.div_small by lia; lia).
  now rewrite Z.mod_small by lia.
Qed.

(** The image of a swapped 16-bit value: its high byte, then its low byte. *)
Lemma u16_bytes_swap (v : Z) :
  is_u16 v -> u16_bytes (swap v) = [v / 256; v mod 256].
Proof.
  unfold is_u16. intros Hv. unfold u16_bytes.
  rewrite shiftr_8, !land_255, swap_arith.
  pose proof (Z.mod_pos_bound v 256 ltac:(lia)).
  assert (v / 256 < 256) by (apply Z.div_lt_upper_bound; lia).
  assert (0 <= v / 256) by (apply Z.div_pos; lia).
  rewrite (Z.mod_small (v / 256)) by lia.
  replace ((v mod 256 * 256 + v / 256) mod 256) with (v / 256)
    by (rewrite Z.add_comm, Z.mod_add by lia; now rewrite Z.mod_small by lia).
  replace ((v mod 256 * 256 + v / 256) / 256) with (v mod 256)
    by (rewrite Z.add_comm, Z.div_add by lia; rewrite (Z.div_small (v / 256)) by lia; lia).
  now rewrite (Z.mod_small (v mod 256)) by lia.
Qed.

(** X6. The observer of a transaction whose response arrives whole is
    called once, with the raw bytes of the frame: header, payload, the two
    checksum bytes and the stop byte as received; without an observer no
    call is made. *)
Theorem execute_observer_frame (self : JbdBms) (header : request_header_t)
    (cmd result : ptr) (w : World)
    (rcode n : Z) (payload : list Z) (c0 c1 stopb : Z) (rest : list Z) :
  encodes header cmd ->
  0 <= length header ->
  (4 + Z.to_nat (length header) + 3 <= tx_room w)%nat ->
  rx w = 221 :: rcode :: n :: payload ++ c0 :: c1 :: stopb :: rest ->
  Z.of_nat (List.length payload) = n ->
  n <= 64 ->
  payload = [] \/ (exists buf, result = Some buf
                               /\ (List.length payload <= List.length buf)%nat) ->
  is_byte c0 -> is_byte c1 ->
  callbacks (events (execute self header cmd result w))
  = if _serial_cb self
    then [[221; rcode; n] ++ payload ++ [c0; c1; stopb]]
    else [].
Proof.
  intros Henc Hlen Hroom Hrx Hn Hn64 Hbuf Hc0 Hc1.
  assert (Hres : payload = [] \/ result <> None).
  { destruct Hbuf as [H | (buf & -> & _)]; [now left | right; discriminate]. }
  rewrite (execute_transmitted self header cmd result w Henc Hlen Hroom).
  cbv zeta.
  rewrite (read_response_complete _ _ 221 rcode n payload c0 c1 stopb rest);
    [| exact Hrx | exact Hn | exact Hres | reflexivity | exact Hn64].
  cbn [events snd].
  destruct (pace_quiet self w) as (_ & _ & Hc & _).
  destruct (pin_events_quiet self true) as (_ & Hc1' & _).
  destruct (pin_events_quiet self false) as (_ & Hc2 & _).
  destruct (frame_reads_quiet 221 rcode n payload c0 c1 stopb) as (_ & Hc3 & _).
  unfold request_events.
  rewrite !callbacks_app, Hc, Hc1', Hc2, Hc3. cbn [callbacks app].
  unfold observer_events. destruct (_serial_cb self); [| reflexivity].
  cbn [callbacks]. f_equal.
  unfold complete_serial_data.
  cbn [l_header l_result l_crc l_stop response_bytes rsp_start returncode rsp_length].
  rewrite <- Hn, Nat2Z.id.
  rewrite (read_mem_holds _ payload) by (now apply store_payload_holds).
  rewrite u16_bytes_of_bytes by assumption.
  reflexivity.
Qed.

Lemma execute_observer_frame_witness :
  callbacks (events (execute (mkJbdBms 10 4 true) (mkRequest 0 165 3 0) None
                       (Some [1; 2; 3; 4])
                       (mkWorld 1000 995
                          [221; 0; 2; 170; 187; 254; 153; 119; 5] 100)))
  = if _serial_cb (mkJbdBms 10 4 true)
    then [[221; 0; 2] ++ [170; 187] ++ [254; 153; 119]]
    else [].
Proof.
  apply (execute_observer_frame (mkJbdBms 10 4 true) (mkRequest 0 165 3 0) None
           (Some [1; 2; 3; 4])
           (mkWorld 1000 995 [221; 0; 2; 170; 187; 254; 153; 119; 5] 100)
           0 2 [170; 187] 254 153 119 [5]).
  - reflexivity.
  - simpl; lia.
  - simpl; lia.
  - reflexivity.
  - reflexivity.
  - lia.
  - right. exists [1; 2; 3; 4]. split; [reflexivity | simpl; lia].
  - unfold is_byte; lia.
  - unfold is_byte; lia.
Defined.

(** X7. A transaction never sleeps longer than the configured delay,
    wherever the clock and the timestamp stand. *)
Theorem execute_sleep_bound (self : JbdBms) (header : request_header_t)
    (cmd result : ptr) (w : World) :
  0 <= _delay self ->
  0 <= slept (events (execute self header cmd result w)) <= _delay self.
Proof.
  intros Hd.
  destruct (Z.eq_dec (genCrc (command header) (length header) cmd) 0) as [E | E].
  - rewrite execute_rejected by exact E. cbn. lia.
  - apply encodes_crc in E.
    destruct (execute_trace self header cmd result w E)
      as (_ & evs & -> & Hs & _).
    rewrite slept_app, Hs.
    destruct (pace_events self w) as [-> | (ms & -> & Hms)]; cbn; lia.
Qed.

Lemma execute_sleep_bound_witness :
  0 <= slept (events (execute (mkJbdBms 10 4 true) (mkRequest 0 165 3 0) None
                        None (mkWorld 5 4294967290 [] 100)))
  <= _delay (mkJbdBms 10 4 true).
Proof.
  apply (execute_sleep_bound (mkJbdBms 10 4 true) (mkRequest 0 165 3 0) None
           None (mkWorld 5 4294967290 [] 100)).
  simpl; lia.
Defined.

(** X8. The request on the wire, when the stream takes it whole: start
    marker, the header's three bytes, the payload, the accumulator of the
    checksum with its high byte first, and the stop marker 0x77. *)
Theorem execute_request_frame (self : JbdBms) (header : request_header_t)
    (cmd result : ptr) (w : World) (payload : list Z) :
  encodes header cmd ->
  holds cmd payload ->
  Z.of_nat (List.length payload) = length header ->
  (4 + Z.to_nat (length header) + 3 <= tx_room w)%nat ->
  let acc := accumulator (command header) (length header) payload in
  writes (events (execute self header cmd result w))
  = [[221; command header; code header; length header];
     payload;
     [acc / 256; acc mod 256];
     [119]].
Proof.
  intros Henc Hholds Hlen Hroom acc.
  assert (Hlt : length header < 31).
  { destruct (Z_lt_le_dec (length header) 31) as [H | H]; [exact H |].
    apply encodes_crc in Henc. exfalso. apply Henc.
    apply genCrc_rejects. now left. }
  rewrite (execute_transmitted self header cmd result w Henc ltac:(lia) Hroom).
  cbv zeta.
  destruct (read_response _ _) as [[[rc l] w3] e3] eqn:E.
  cbn [events snd].
  destruct (pace_quiet self w) as (_ & _ & _ & Hw).
  destruct (pin_events_quiet self true) as (_ & _ & Hw1 & _).
  destruct (pin_events_quiet self false) as (_ & _ & Hw2 & _).
  destruct (observer_events_quiet self l) as (_ & _ & Hw3 & _).
  pose proof (only_reads_read_response
                (mkLocals (mkResponse 0 0 0) result
                   (genCrc (command header) (length header) cmd) 119)
                (mkWorld (clock (world (pace self w))) (prev_cell w) (rx w)
                   (tx_room w - (4 + Z.to_nat (length header) + 3)))) as Hrd.
  rewrite E in Hrd. cbn [events snd] in Hrd.
  destruct (reads_only_quiet e3 Hrd) as (_ & Hw4 & _).
  unfold request_events.
  rewrite !writes_app, Hw, Hw1, Hw2, Hw3, Hw4. cbn [writes app].
  rewrite <- Hlen, Nat2Z.id, (read_mem_holds cmd payload Hholds), Hlen.
  rewrite (genCrc_holds _ _ cmd payload Hholds Hlen Hlt).
  fold (accumulator (command header) (length header) payload). fold acc.
  rewrite u16_bytes_swap by (apply wrap16_u16). reflexivity.
Qed.

Lemma execute_request_frame_witness :
  writes (events (execute (mkJbdBms 10 4 true) (mkRequest 0 3 0 0) None None
                    (mkWorld 1000 995 [] 100)))
  = [[221; 3; 0; 0]; []; [255; 253]; [119]].
Proof.
  apply (execute_request_frame (mkJbdBms 10 4 true) (mkRequest 0 3 0 0) None
           None (mkWorld 1000 995 [] 100) []).
  - reflexivity.
  - reflexivity.
  - reflexivity.
  - simpl; lia.
Defined.

(** ** The checksum, continued *)

Lemma sum_app (p q : list Z) : sum (p ++ q) = sum p + sum q.
Proof. unfold sum. induction p as [| a p IH]; cbn; [reflexivity | rewrite IH; lia]. Qed.

Lemma swap_injective (u v : Z) : is_u16 u -> is_u16 v -> swap u = swap v -> u = v.
Proof.
  intros Hu Hv H. rewrite <- (swap_involutive u Hu), <- (swap_involutive v Hv).
  now rewrite H.
Qed.

(** X9. For byte-sized inputs [prepareCmd] succeeds exactly on requests of
    fewer than 31 bytes that are not the one request whose checksum is 0:
    seed 0 with no payload. *)
Theorem prepareCmd_succeeds_iff (header : request_header_t) (data : ptr)
    (payload : list Z) :
  is_byte (command header) ->
  Forall is_byte payload ->
  holds data payload ->
  Z.of_nat (List.length payload) = length header ->
  fst (fst (prepareCmd header data)) = true
  <-> length header < 31 /\ (command header <> 0 \/ length header <> 0).
Proof.
  intros Hc Hp Hd Hlen.
  change (fst (fst (prepareCmd header data)) = true) with (encodes header data).
  rewrite encodes_crc.
  pose proof (sum_bytes_bound payload Hp) as Hsum.
  unfold is_byte in Hc. split.
  - intros Hcrc.
    destruct (Z_lt_le_dec (length header) 31) as [Hlt | Hge].
    + split; [exact Hlt |].
      destruct (Z.eq_dec (command header) 0) as [E0 | E0]; [| now left].
      right. intros El. apply Hcrc.
      rewrite (genCrc_holds _ _ data payload Hd Hlen Hlt).
      rewrite El in Hlen. destruct payload; [| cbn in Hlen; lia].
      rewrite E0, El. reflexivity.
    + exfalso. apply Hcrc, genCrc_rejects. now left.
  - intros [Hlt Hnz].
    apply (genCrc_nonzero _ _ data payload Hd Hlen Hlt). lia.
Qed.

Lemma prepareCmd_succeeds_iff_witness :
  fst (fst (prepareCmd (mkRequest 0 0 3 0) None)) = true
  <-> 0 < 31 /\ (0 <> 0 \/ 0 <> 0).
Proof.
  apply (prepareCmd_succeeds_iff (mkRequest 0 0 3 0) None []).
  - unfold is_byte; simpl; lia.
  - constructor.
  - reflexivity.
  - reflexivity.
Defined.

(** Two payloads of the same length below 31 get the same checksum
    exactly when their bytes have the same sum: the checksum sees the sum
    and nothing else of the payload. *)
Lemma genCrc_eq_iff_sum_eq (byte len : Z) (p q : list Z) :
  Forall is_byte p -> Forall is_byte q ->
  Z.of_nat (List.length p) = len ->
  Z.of_nat (List.length q) = len ->
  len < 31 ->
  genCrc byte len (Some p) = genCrc byte len (Some q) <-> sum p = sum q.
Proof.
  intros Hp Hq Hlp Hlq Hlt.
  rewrite (genCrc_holds byte len (Some p) p), (genCrc_holds byte len (Some q) q);
    try assumption; try (exists []; now rewrite app_nil_r).
  pose proof (sum_bytes_bound p Hp) as Hsp.
  pose proof (sum_bytes_bound q Hq) as Hsq.
  split.
  - intros H. apply swap_injective in H; try apply wrap16_u16.
    unfold wrap16 in H.
    assert (E : (sum p - sum q) mod 65536 = 0).
    { replace (sum p - sum q)
        with ((0 - byte - len - sum q) - (0 - byte - len - sum p)) by lia.
      rewrite Zminus_mod, H, Z.sub_diag. reflexivity. }
    apply Z.mod_divide in E; [| lia].
    destruct E as [k Hk]. nia.
  - intros ->. reflexivity.
Qed.

(** X10. Two payloads of the same length below 31 get the same checksum
    exactly when their bytes have the same sum: the checksum sees the sum
    and nothing else of the payload. *)
Theorem genCrc_collides_iff (byte len : Z) (p q : list Z) :
  Forall is_byte p -> Forall is_byte q ->
  Z.of_nat (List.length p) = len ->
  Z.of_nat (List.length q) = len ->
  len < 31 ->
  genCrc byte len (Some p) = genCrc byte len (Some q) <-> sum p = sum q.
Proof.
  intros. now apply genCrc_eq_iff_sum_eq.
Qed.

Lemma genCrc_collides_iff_witness :
  genCrc 3 2 (Some [1; 2]) = genCrc 3 2 (Some [2; 1]) <-> sum [1; 2] = sum [2; 1].
Proof.
  apply (genCrc_collides_iff 3 2 [1; 2] [2; 1]).
  - repeat constructor; unfold is_byte; lia.
  - repeat constructor; unfold is_byte; lia.
  - reflexivity.
  - reflexivity.
  - lia.
Defined.

(** X11. A change of one payload byte is always caught: [isValid] refuses
    the checksum of the original payload. *)
Theorem isValid_catches_one_byte (s byte : Z) (pre post : list Z) (a b : Z) :
  Forall is_byte (pre ++ a :: post) ->
  is_byte b ->
  a <> b ->
  let len := Z.of_nat (List.length (pre ++ a :: post)) in
  len < 31 ->
  isValid (mkResponse s byte len) (Some (pre ++ b :: post))
          (genCrc byte len (Some (pre ++ a :: post)))
  = false.
Proof.
  intros Hp Hb Hab len Hlt.
  unfold isValid, genResponseCrc. cbn [returncode rsp_length].
  apply Z.eqb_neq. intros H.
  assert (Hq : Forall is_byte (pre ++ b :: post)).
  { apply Forall_app in Hp. destruct Hp as [H1 H2].
    apply Forall_app. split; [exact H1 |].
    inversion H2; subst. now constructor. }
  apply (genCrc_eq_iff_sum_eq byte len (pre ++ b :: post) (pre ++ a :: post)) in H;
    try assumption; try reflexivity.
  - rewrite !sum_app in H. unfold sum in H. cbn [fold_right] in H. lia.
  - subst len. rewrite !length_app. reflexivity.
Qed.

Lemma isValid_catches_one_byte_witness :
  isValid (mkResponse 221 0 (Z.of_nat (List.length ([170] ++ 187 :: [1]))))
          (Some ([170] ++ 186 :: [1]))
          (genCrc 0 (Z.of_nat (List.length ([170] ++ 187 :: [1])))
                  (Some ([170] ++ 187 :: [1])))
  = false.
Proof.
  apply (isValid_catches_one_byte 221 0 [170] [1] 187 186).
  - repeat constructor; unfold is_byte; lia.
  - unfold is_byte; lia.
  - lia.
  - simpl; lia.
Defined.

(** X12. The order of the payload bytes is not protected: [isValid]
    accepts any rearrangement of the payload under the original checksum. *)
Theorem isValid_blind_to_order (s byte : Z) (p q : list Z) :
  Permutation p q ->
  let len := Z.of_nat (List.length p) in
  isValid (mkResponse s byte len) (Some q) (genCrc byte len (Some p)) = true.
Proof.
  intros Hperm len.
  unfold isValid, genResponseCrc. cbn [returncode rsp_length].
  apply Z.eqb_eq.
  assert (Hlq : Z.of_nat (List.length q) = len)
    by (subst len; now rewrite (Permutation_length Hperm)).
  destruct (Z_lt_le_dec len 31) as [Hlt | Hge].
  - rewrite (genCrc_holds byte len (Some q) q), (genCrc_holds byte len (Some p) p);
      try assumption; try reflexivity; try (exists []; now rewrite app_nil_r).
    do 3 f_equal.
    clear -Hperm. unfold sum.
    induction Hperm; cbn [fold_right] in *; lia.
  - rewrite !genCrc_rejects by (left; assumption). reflexivity.
Qed.

Lemma isValid_blind_to_order_witness :
  isValid (mkResponse 221 0 (Z.of_nat (List.length [11; 184])))
          (Some [184; 11]) (genCrc 0 (Z.of_nat (List.length [11; 184]))
                                   (Some [11; 184]))
  = true.
Proof.
  apply (isValid_blind_to_order 221 0 [11; 184] [184; 11]).
  apply perm_swap.
Defined.

(** ** The public operations, continued *)

Lemma swap_u16_of_bytes (a b : Z) (rest : list Z) :
  is_byte a -> is_byte b -> swap (u16_of_bytes (a :: b :: rest)) = 256 * a + b.
Proof.
  intros Ha Hb. rewrite u16_of_bytes_arith by exact Ha.
  unfold is_byte in *. rewrite swap_arith.
  replace ((a + 256 * b) mod 256) with a
    by (rewrite Z.mul_comm, Z.mod_add by lia; now rewrite Z.mod_small by lia).
  replace ((a + 256 * b) / 256) with b
    by (rewrite Z.mul_comm, Z.div_add by lia; rewrite Z.div_small by lia; lia).
  rewrite Z.mod_small by lia. lia.
Qed.

Lemma overwrite_length {A} (got m : list A) :
  (List.length got <= List.length m)%nat ->
  List.length (overwrite got m) = List.length m.
Proof. intros H. unfold overwrite. rewrite length_app, length_skipn. lia. Qed.

Lemma swap_signed16 (u : Z) : is_u16 u -> swap (signed16 u) = swap u.
Proof.
  unfold is_u16, signed16. intros Hu.
  destruct (u <? 32768); [reflexivity |].
  rewrite !swap_arith.
  replace (u - 65536) with (u + (-256) * 256) by lia.
  rewrite Z.mod_add, Z.div_add by lia.
  replace (u / 256 + -256) with (u / 256 + (-1) * 256) by lia.
  now rewrite Z.mod_add by lia.
Qed.

Lemma u16_of_bytes_u16 (a b : Z) (rest : list Z) :
  is_byte a -> is_byte b -> is_u16 (u16_of_bytes (a :: b :: rest)).
Proof.
  intros Ha Hb. rewrite u16_of_bytes_arith by exact Ha.
  unfold is_byte, is_u16 in *. lia.
Qed.

(** The record that wire bytes decode to. *)
Lemma host_order_of_wire (p tl : list Z) :
  Forall is_byte p ->
  (18 <= List.length p)%nat ->
  let d := host_order (Status_of_image (p ++ tl)) in
  voltage d = be16 p 0
  /\ current d = signed16 (be16 p 2)
  /\ remainingCapacity d = be16 p 4
  /\ nominalCapacity d = be16 p 6
  /\ cycles d = be16 p 8
  /\ productionDate d = be16 p 10
  /\ balanceLow d = be16 p 12
  /\ balanceHigh d = be16 p 14
  /\ fault d = be16 p 16.
Proof.
  intros Hp Hlen d. subst d.
  do 18 (destruct p as [| ? p]; [cbn in Hlen; lia |]).
  repeat match goal with
         | H : Forall _ (_ :: _) |- _ => inversion H; clear H; subst
         end.
  unfold host_order, Status_of_image, be16.
  cbn [app skipn nth voltage current remainingCapacity nominalCapacity cycles
       productionDate balanceLow balanceHigh fault cells].
  rewrite swap_signed16 by (now apply u16_of_bytes_u16).
  rewrite !swap_u16_of_bytes by assumption.
  repeat split; reflexivity.
Qed.

Section ReadResults.

Variables READ STATUS CELLS HARDWARE : Z.
Variable self : JbdBms.
Variable w : World.
Variables (n : Z) (payload : list Z) (c0 c1 stopb : Z) (rest : list Z).

Hypothesis room : (7 <= tx_room w)%nat.
Hypothesis response :
  rx w = 221 :: 0 :: n :: payload ++ c0 :: c1 :: stopb :: rest.
Hypothesis declared : Z.of_nat (List.length payload) = n.
Hypothesis bound : n <= 64.
Hypothesis checksum : u16_of_bytes [c0; c1] = genCrc 0 n (Some payload).
Hypothesis bytes : Forall is_byte payload.

(** What a read operation gets from [execute] when the device answers with
    a frame that passes: the payload at the start of its record. *)
Lemma read_operation_result (reg : Z) (image : list Z) :
  encodes (mkRequest 0 READ reg 0) None ->
  (0 < List.length payload <= List.length image)%nat ->
  value (execute self (mkRequest 0 READ reg 0) None (Some image) w)
  = (true, Some (overwrite payload image)).
Proof.
  intros Henc Hfit.
  destruct (execute_complete_frame self (mkRequest 0 READ reg 0) None
              (Some image) w 0 n payload c0 c1 stopb rest)
    as (Hv & _); try assumption.
  - cbn; lia.
  - right. exists image. split; [reflexivity | lia].
  - rewrite Hv, <- checksum, Z.eqb_refl. cbn [andb Z.eqb].
    destruct payload; [cbn in Hfit; lia | reflexivity].
Qed.

(** X13. [getStatus] on an accepted response of at least 18 bytes that fit
    the record: each of the nine 16-bit fields is the value the wire
    carries with its high byte first, read as a signed value for [current]
    and as an unsigned one for the others. *)
Theorem getStatus_decodes (data : Status_t) :
  encodes (mkRequest 0 READ STATUS 0) None ->
  (18 <= List.length payload <= List.length (Status_image data))%nat ->
  let r := value (getStatus READ STATUS self data w) in
  fst r = true
  /\ voltage (snd r) = be16 payload 0
  /\ current (snd r) = signed16 (be16 payload 2)
  /\ remainingCapacity (snd r) = be16 payload 4
  /\ nominalCapacity (snd r) = be16 payload 6
  /\ cycles (snd r) = be16 payload 8
  /\ productionDate (snd r) = be16 payload 10
  /\ balanceLow (snd r) = be16 payload 12
  /\ balanceHigh (snd r) = be16 payload 14
  /\ fault (snd r) = be16 payload 16.
Proof.
  intros Henc Hfit r. subst r.
  rewrite getStatus_eq. cbn [fst snd].
  unfold status_left_by_execute.
  rewrite (read_operation_result STATUS (Status_image data) Henc) by lia.
  cbn [fst snd]. split; [reflexivity |].
  unfold object_bytes. cbn [deref].
  rewrite firstn_all2 by (rewrite overwrite_length; lia).
  unfold overwrite. apply host_order_of_wire; [exact bytes | lia].
Qed.

Lemma Cells_image_length (d : Cells_t) :
  List.length (Cells_image d) = (2 * List.length (voltages d))%nat.
Proof.
  unfold Cells_image. induction (voltages d) as [| v l IH]; cbn; [reflexivity |].
  rewrite IH. lia.
Qed.

Lemma swap_u16s_of_bytes (k : nat) (p q : list Z) :
  Forall is_byte p ->
  List.length p = (2 * k)%nat ->
  map swap (u16s_of_bytes k (p ++ q)) = be16_list p.
Proof.
  revert p. induction k as [| k IH]; intros p Hp Hlen.
  - destruct p; [reflexivity | cbn in Hlen; lia].
  - destruct p as [| a [| b p]]; try (cbn in Hlen; lia).
    inversion Hp as [| ? ? Ha Hp']; subst.
    inversion Hp' as [| ? ? Hb Hp'']; subst.
    cbn [u16s_of_bytes map app be16_list skipn].
    rewrite swap_u16_of_bytes by assumption.
    rewrite IH; [reflexivity | assumption | cbn in Hlen; lia].
Qed.

(** X14. [getCells] on an accepted response that fills the array: every
    voltage is the value the wire carries with its high byte first. *)
Theorem getCells_decodes (data : Cells_t) :
  encodes (mkRequest 0 READ CELLS 0) None ->
  voltages data <> [] ->
  List.length payload = (2 * List.length (voltages data))%nat ->
  let r := value (getCells READ CELLS self data w) in
  fst r = true /\ voltages (snd r) = be16_list payload.
Proof.
  intros Henc Hne Hfit r. subst r.
  rewrite getCells_eq. cbn [fst snd voltages].
  unfold cells_left_by_execute.
  assert (Hpos : (0 < List.length (voltages data))%nat)
    by (destruct (voltages data); [congruence | cbn; lia]).
  rewrite (read_operation_result CELLS (Cells_image data) Henc)
    by (rewrite Cells_image_length; lia).
  cbn [fst snd]. split; [reflexivity |].
  unfold object_bytes, Cells_of_image. cbn [deref voltages].
  rewrite firstn_all2
    by (rewrite overwrite_length; rewrite Cells_image_length; lia).
  unfold overwrite. now apply swap_u16s_of_bytes.
Qed.

(** X15. [getHardware] on an accepted response that fits the block: the
    payload is at the start of the block, byte for byte, and the bytes
    behind it are as they were. *)
Theorem getHardware_copies (data : Hardware_t) :
  encodes (mkRequest 0 READ HARDWARE 0) None ->
  (0 < List.length payload <= List.length data)%nat ->
  value (getHardware READ HARDWARE self data w)
  = (true, payload ++ skipn (List.length payload) data).
Proof.
  intros Henc Hfit.
  pose proof (read_operation_result HARDWARE data Henc Hfit) as Hv.
  unfold getHardware, bind.
  destruct (execute _ _ _ _ w) as [[[rc p] w'] e]. cbn in Hv.
  inversion Hv; subst. cbn [value fst snd].
  unfold object_bytes. cbn [deref].
  rewrite firstn_all2 by (rewrite overwrite_length; lia).
  reflexivity.
Qed.

End ReadResults.

Lemma u16_of_bytes_zero (lo hi : Z) :
  is_byte lo -> is_byte hi -> (u16_of_bytes [lo; hi] = 0 <-> lo = 0 /\ hi = 0).
Proof.
  intros Hlo Hhi. rewrite u16_of_bytes_arith by exact Hlo.
  unfold is_byte in *. lia.
Qed.

Section WriteResult.

Variables WRITE MOSFET MOSFET_BOTH : Z.
Variable self : JbdBms.

Hypothesis WRITE_byte : is_byte WRITE.
Hypothesis MOSFET_BOTH_byte : is_byte MOSFET_BOTH.

Lemma setMosfetStatus_execute (status : Z) (w : World) :
  value (setMosfetStatus WRITE MOSFET MOSFET_BOTH self status w)
  = fst (value (execute self (mkRequest 0 WRITE MOSFET 2)
                  (Some [0; Z.land (Z.lnot status) MOSFET_BOTH]) None w)).
Proof.
  unfold setMosfetStatus, bind.
  replace (wrap8 (Z.land (Z.lnot status) MOSFET_BOTH))
    with (Z.land (Z.lnot status) MOSFET_BOTH)
    by (unfold wrap8; symmetry; apply Z.mod_small;
        apply land_mask_byte; exact MOSFET_BOTH_byte).
  destruct (execute _ _ _ _ w) as [[[rc res] w'] evs]. reflexivity.
Qed.

Lemma setMosfetStatus_encodes (status : Z) :
  encodes (mkRequest 0 WRITE MOSFET 2)
          (Some [0; Z.land (Z.lnot status) MOSFET_BOTH]).
Proof.
  apply encodes_crc. cbn [command length].
  apply (genCrc_nonzero _ _ _ [0; Z.land (Z.lnot status) MOSFET_BOTH]).
  - exists []. reflexivity.
  - reflexivity.
  - lia.
  - pose proof (land_mask_byte (Z.lnot status) MOSFET_BOTH MOSFET_BOTH_byte).
    unfold is_byte in *. cbn. lia.
Qed.

(** X16. [setMosfetStatus] passes no buffer, so the only response it
    accepts is the empty acknowledgement: start marker 0xDD, status 0,
    length 0 and the two checksum bytes 0; with no observer set, a response
    that declares a payload fails it.  (With an observer the source goes on
    to copy the declared number of bytes through the null pointer.) *)
Theorem setMosfetStatus_acknowledged (status : Z) (w : World)
    (s rcode c0 c1 stopb : Z) (rest : list Z) :
  (9 <= tx_room w)%nat ->
  is_byte c0 -> is_byte c1 ->
  (rx w = s :: rcode :: 0 :: c0 :: c1 :: stopb :: rest ->
   (value (setMosfetStatus WRITE MOSFET MOSFET_BOTH self status w) = true
    <-> s = 221 /\ rcode = 0 /\ c0 = 0 /\ c1 = 0))
  /\ (forall s' rcode' n tail,
        rx w = s' :: rcode' :: n :: tail -> n <> 0 ->
        _serial_cb self = false ->
        value (setMosfetStatus WRITE MOSFET MOSFET_BOTH self status w) = false).
Proof.
  intros Hroom Hc0 Hc1.
  pose proof (setMosfetStatus_encodes status) as Henc.
  assert (Hlen : 0 <= length (mkRequest 0 WRITE MOSFET 2)) by (cbn; lia).
  assert (Hroom' : (4 + Z.to_nat (length (mkRequest 0 WRITE MOSFET 2)) + 3
                    <= tx_room w)%nat) by (cbn; lia).
  rewrite setMosfetStatus_execute. split.
  - intros Hrx.
    destruct (Z.eq_dec s 221) as [-> | Hs].
    + destruct (execute_complete_frame self _ _ None w
                  rcode 0 [] c0 c1 stopb rest Henc Hlen Hroom' Hrx eq_refl
                  ltac:(lia) (or_introl eq_refl)) as (Hv & _).
      rewrite Hv. cbn [fst].
      rewrite andb_true_iff, !Z.eqb_eq.
      split.
      * intros [Hcrc ->]. rewrite <- (u16_of_bytes_zero c0 c1) by assumption.
        split; [reflexivity |]. split; [reflexivity |].
        rewrite <- Hcrc. reflexivity.
      * intros (_ & -> & -> & ->). split; reflexivity.
    + destruct (execute_header_only self _ _ None w
                  s rcode 0 (c0 :: c1 :: stopb :: rest) Henc Hlen Hroom' Hrx
                  (or_introl Hs)) as (Hv & _).
      rewrite Hv. cbn [fst]. split; [discriminate | tauto].
  - intros s' rcode' n tail Hrx Hn _.
    destruct (execute_header_only self _ _ None w
                s' rcode' n tail Henc Hlen Hroom' Hrx
                (or_intror (or_intror (conj Hn eq_refl)))) as (Hv & _).
    now rewrite Hv.
Qed.

End WriteResult.

(** ** The balance string, continued *)

(** X17. The string [balance] returns depends on the record alone, not on
    what the shared buffer held: a second call replaces the string of the
    first in the buffer both calls return. *)
Theorem balance_overwrites (buf : list ascii) (d1 d2 : Status_t) :
  c_str (balance (balance buf d1) d2) = c_str (balance buf d2)
  /\ (List.length buf = 33%nat ->
      List.length (balance (balance buf d1) d2) = 33%nat).
Proof.
  split.
  - now rewrite !balance_c_str.
  - intros Hbuf.
    assert (Hlen : forall b d, List.length b = 33%nat ->
                               List.length (balance b d) = 33%nat).
    { intros b d Hb. rewrite balance_eq. cbv zeta.
      rewrite length_app, balance_loop_length. cbn [List.length].
      rewrite length_skipn. lia. }
    now apply Hlen, Hlen.
Qed.

Lemma balance_overwrites_witness :
  let buf := repeat "x"%char 33 in
  let d1 := mkStatus 0 0 0 0 0 0 65535 0 0 16 [] in
  let d2 := mkStatus 0 0 0 0 0 0 5 0 0 4 [] in
  c_str (balance (balance buf d1) d2) = c_str (balance buf d2)
  /\ List.length (balance (balance buf d1) d2) = 33%nat.
Proof.
  destruct (balance_overwrites (repeat "x"%char 33)
              (mkStatus 0 0 0 0 0 0 65535 0 0 16 [])
              (mkStatus 0 0 0 0 0 0 5 0 0 4 [])) as [H1 H2].
  split; [exact H1 | apply H2; reflexivity].
Defined.

Lemma balance_bits_testbit (data : Status_t) (i : Z) :
  is_u16 (balanceLow data) ->
  0 <= i < 32 ->
  Z.testbit (balance_bits data) i
  = if i <? 16 then Z.testbit (balanceLow data) i
    else Z.testbit (balanceHigh data) (i - 16).
Proof.
  unfold is_u16. intros Hlo Hi. unfold balance_bits, wrap32.
  rewrite Z.lor_spec.
  change 4294967296 with (2 ^ 32).
  rewrite Z.mod_pow2_bits_low by lia.
  destruct (Z.ltb_spec i 16) as [Hlt | Hge].
  - rewrite Z.shiftl_spec_low by lia. reflexivity.
  - rewrite Z.shiftl_spec by lia.
    replace (Z.testbit (balanceLow data) i) with false; [apply orb_false_r |].
    symmetry.
    destruct (Z.eq_dec (balanceLow data) 0) as [-> | Hnz];
      [apply Z.bits_0 |].
    apply Z.bits_above_log2; [lia |].
    apply Z.log2_lt_pow2; [lia |].
    apply Z.lt_le_trans with (2 ^ 16); [lia |].
    apply Z.pow_le_mono_r; lia.
Qed.

(** X18. Character [i] of the balance string is bit [i] of [balanceLow] for
    the first sixteen cells and bit [i - 16] of [balanceHigh] for the
    cells from the seventeenth on. *)
Theorem balance_halves (buf : list ascii) (data : Status_t) (i : nat) :
  is_u16 (balanceLow data) ->
  (i < Z.to_nat (Z.min (cells data) 32))%nat ->
  nth i (list_ascii_of_string (c_str (balance buf data))) NUL
  = if (if (i <? 16)%nat
        then Z.testbit (balanceLow data) (Z.of_nat i)
        else Z.testbit (balanceHigh data) (Z.of_nat i - 16))
    then "1"%char else "0"%char.
Proof.
  intros Hlo Hi.
  rewrite balance_c_str, list_ascii_of_string_of_list_ascii.
  rewrite balance_loop_nth by exact Hi.
  rewrite balance_bits_testbit by (try assumption; lia).
  destruct (Nat.ltb_spec i 16), (Z.ltb_spec (Z.of_nat i) 16); try lia; reflexivity.
Qed.

Lemma balance_halves_witness :
  nth 17 (list_ascii_of_string
            (c_str (balance (repeat "x"%char 33)
                      (mkStatus 0 0 0 0 0 0 1 2 0 20 [])))) NUL
  = if (if (17 <? 16)%nat
        then Z.testbit 1 (Z.of_nat 17)
        else Z.testbit 2 (Z.of_nat 17 - 16))
    then "1"%char else "0"%char.
Proof.
  apply (balance_halves (repeat "x"%char 33) (mkStatus 0 0 0 0 0 0 1 2 0 20 []) 17).
  - unfold is_u16; simpl; lia.
  - simpl; lia.
Defined.

(** ** The object *)

Lemma execute_pin_writes self h c r w :
  encodes h c ->
  pin_writes (events (execute self h c r w))
  = if 0 <=? _dir_pin self
    then [(_dir_pin self, true); (_dir_pin self, false)] else [].
Proof.
  intros Henc.
  destruct (execute_sent_trace self h c r w Henc)
    as (wr & rd & Hev & Hwr & Hp3 & _).
  destruct (pace_quiet self w) as (_ & Hp & _).
  destruct (writes_only_quiet wr Hwr) as (Hp2 & _).
  rewrite Hev, !pin_writes_app, Hp. cbn [pin_writes app].
  rewrite !pin_writes_app, Hp2. cbn [pin_writes app].
  rewrite !pin_writes_app, Hp3.
  unfold pin_events. destruct (0 <=? _dir_pin self); reflexivity.
Qed.

(** X19. [begin] with a pin makes it an output and sets it low, and every
    transaction sent afterwards raises and lowers that pin once; [begin]
    with a negative number touches no pin, then and afterwards.  Delay and
    observer stay as they were. *)
Theorem begin_direction_pin (self : JbdBms) (dir_pin : Z)
    (header : request_header_t) (cmd result : ptr) (w : World) :
  encodes header cmd ->
  let self' := fst (begin self dir_pin) in
  let calls := snd (begin self dir_pin) in
  _delay self' = _delay self
  /\ _serial_cb self' = _serial_cb self
  /\ (dir_pin < 0 ->
      calls = []
      /\ pin_writes (events (execute self' header cmd result w)) = [])
  /\ (0 <= dir_pin ->
      calls = [PinModeOutput dir_pin; PinWrite dir_pin false]
      /\ pin_writes (events (execute self' header cmd result w))
         = [(dir_pin, true); (dir_pin, false)]).
Proof.
  intros Henc self' calls. subst self' calls.
  unfold begin. cbn [_dir_pin].
  destruct (Z.leb_spec 0 dir_pin) as [Hge | Hlt]; cbn [fst snd _delay _serial_cb].
  - do 2 (split; [reflexivity |]). split; [intros; lia |].
    intros _. split; [reflexivity |].
    rewrite execute_pin_writes by exact Henc. cbn [_dir_pin].
    now replace (0 <=? dir_pin) with true by (symmetry; apply Z.leb_le; lia).
  - do 2 (split; [reflexivity |]). split; [| intros; lia].
    intros _. split; [reflexivity |].
    rewrite execute_pin_writes by exact Henc. cbn [_dir_pin].
    now replace (0 <=? dir_pin) with false by (symmetry; apply Z.leb_gt; lia).
Qed.

Lemma begin_direction_pin_witness :
  let self := mkJbdBms 10 (-1) false in
  let w := mkWorld 1000 995 [] 100 in
  let self' := fst (begin self 4) in
  let calls := snd (begin self 4) in
  _delay self' = _delay self
  /\ _serial_cb self' = _serial_cb self
  /\ (4 < 0 ->
      calls = []
      /\ pin_writes (events (execute self' (mkRequest 0 165 3 0) None None w)) = [])
  /\ (0 <= 4 ->
      calls = [PinModeOutput 4; PinWrite 4 false]
      /\ pin_writes (events (execute self' (mkRequest 0 165 3 0) None None w))
         = [(4, true); (4, false)]).
Proof.
  apply (begin_direction_pin (mkJbdBms 10 (-1) false) 4 (mkRequest 0 165 3 0)
           None None (mkWorld 1000 995 [] 100)).
  reflexivity.
Defined.

(** ** The caller's buffer *)

Lemma and_then_keeps a b l w :
  keeps_result b ->
  l_result (snd (value ((a &&& b)%jbd l w))) = l_result (snd (value (a l w))).
Proof.
  intros Hb. unfold and_then, bind.
  destruct (a l w) as [[[ok l1] w1] e1]. destruct ok; [| reflexivity].
  specialize (Hb l1 w1). destruct (b l1 w1) as [[[ok2 l2] w2] e2].
  exact Hb.
Qed.

Lemma keeps_result_check f : keeps_result (check f).
Proof. intros l w. reflexivity. Qed.

Lemma keeps_result_read_crc : keeps_result read_crc.
Proof. intros l w. reflexivity. Qed.

Lemma keeps_result_read_stop : keeps_result read_stop.
Proof. intros l w. reflexivity. Qed.

(** Whatever the stream holds, the reading stores at most 64 bytes. *)
Lemma read_response_bounded l w :
  stored_at_most_64 (l_result l) (l_result (snd (value (read_response l w)))).
Proof.
  unfold read_response.
  rewrite !and_then_keeps
    by auto using keeps_result_check, keeps_result_read_crc, keeps_result_read_stop.
  unfold and_then at 1. unfold bind.
  rewrite and_then_check.
  unfold read_header, bind, serial_readBytes, ret.
  cbn [fst snd value l_header l_result].
  match goal with
  | |- context [if ?c && ?f then _ else _] => destruct c; cbn [andb]
  end; [| left; reflexivity].
  match goal with
  | |- context [response_of_bytes ?bs] => generalize (response_of_bytes bs) as hd
  end.
  intros hd. cbn [l_header rsp_start rsp_length].
  destruct (rsp_start hd =? 221); cbn [andb]; [| left; reflexivity].
  destruct (rsp_length hd <=? 64) eqn:E64; [| left; reflexivity].
  apply Z.leb_le in E64.
  unfold read_payload. cbn [l_header l_result].
  destruct (rsp_length hd =? 0); [left; reflexivity |].
  destruct (l_result l) as [m |]; [| left; reflexivity].
  cbn. right. do 2 eexists. split; [reflexivity |]. split; [reflexivity |].
  rewrite length_firstn. lia.
Qed.

Lemma execute_result self h c r w :
  snd (value (execute self h c r w)) = r
  \/ exists l0 w2,
       l_result l0 = r
       /\ snd (value (execute self h c r w))
          = l_result (snd (value (read_response l0 w2))).
Proof.
  destruct (Z.eq_dec (genCrc (command h) (length h) c) 0) as [E | E].
  - left. now rewrite execute_rejected.
  - rewrite (execute_sent self h c r w E). cbv zeta.
    destruct (pace self w) as [[u w1] e1].
    destruct (transmit _ _ _ _ _ w1) as [[rc w2] e2].
    destruct rc; [| left; reflexivity].
    right. unfold receive, bind.
    exists (mkLocals (mkResponse 0 0 0) r (genCrc (command h) (length h) c) 119), w2.
    split; [reflexivity |].
    destruct (read_response _ w2) as [[[rc l] w3] e3].
    destruct (_serial_cb self); reflexivity.
Qed.

(** ** The observer's copy *)

Lemma and_then_keeps_header a b l w :
  keeps_header b ->
  l_header (snd (value ((a &&& b)%jbd l w))) = l_header (snd (value (a l w))).
Proof.
  intros Hb. unfold and_then, bind.
  destruct (a l w) as [[[ok l1] w1] e1]. destruct ok; [| reflexivity].
  specialize (Hb l1 w1). destruct (b l1 w1) as [[[ok2 l2] w2] e2].
  exact Hb.
Qed.

Lemma keeps_header_check f : keeps_header (check f).
Proof. intros l w. reflexivity. Qed.

Lemma keeps_header_read_payload : keeps_header read_payload.
Proof.
  intros l w. unfold read_payload.
  destruct (_ =? 0); [reflexivity |].
  destruct (l_result l); reflexivity.
Qed.

Lemma keeps_header_read_crc : keeps_header read_crc.
Proof. intros l w. reflexivity. Qed.

Lemma keeps_header_read_stop : keeps_header read_stop.
Proof. intros l w. reflexivity. Qed.

(** The length the observer's copy uses is the third byte of the stream. *)
Lemma read_response_declared result crc stop w :
  rsp_length (l_header (snd (value (read_response
                                      (mkLocals (mkResponse 0 0 0) result crc stop)
                                      w))))
  = nth 2 (rx w) 0.
Proof.
  unfold read_response.
  rewrite !and_then_keeps_header
    by auto using keeps_header_check, keeps_header_read_payload,
                  keeps_header_read_crc, keeps_header_read_stop.
  unfold read_header, bind, serial_readBytes, ret.
  cbn [fst snd value l_header].
  destruct (rx w) as [| a [| b [| c rest]]]; reflexivity.
Qed.

(** On a call with [observer_in_bounds] the copy of line 79 stays within
    what [result] points to when the reads are over. *)
Lemma observer_copy_in_bounds self result crc stop w :
  observer_in_bounds self result (rx w) = true ->
  _serial_cb self = true ->
  let l := snd (value (read_response
                         (mkLocals (mkResponse 0 0 0) result crc stop) w)) in
  (Z.to_nat (rsp_length (l_header l)) <= List.length (deref (l_result l)))%nat.
Proof.
  intros Hin Hcb l. subst l.
  rewrite read_response_declared.
  unfold observer_in_bounds in Hin. rewrite Hcb in Hin. cbn [negb orb] in Hin.
  destruct (nth 2 (rx w) 0 =? 0) eqn:E0.
  - apply Z.eqb_eq in E0. rewrite E0. cbn. lia.
  - cbn [orb] in Hin. destruct result as [m |]; [| discriminate].
    apply Nat.leb_le in Hin.
    destruct (read_response_bounded
                (mkLocals (mkResponse 0 0 0) (Some m) crc stop) w)
      as [-> | (m' & got & Hm & -> & _)]; cbn [l_result deref].
    + exact Hin.
    + inversion Hm; subst m'. unfold overwrite.
      rewrite length_app, length_skipn. lia.
Qed.

(** X20. Whatever the device sends, [execute] stores at most 64 bytes in
    the caller's buffer: a buffer of 64 bytes or more keeps its size, and
    what lies behind its first 64 bytes is never touched. *)
Theorem execute_buffer_bound (self : JbdBms) (header : request_header_t)
    (cmd : ptr) (buf : list Z) (w : World) :
  (64 <= List.length buf)%nat ->
  exists buf',
    snd (value (execute self header cmd (Some buf) w)) = Some buf'
    /\ List.length buf' = List.length buf
    /\ skipn 64 buf' = skipn 64 buf.
Proof.
  intros Hbuf.
  assert (H : stored_at_most_64 (Some buf)
                (snd (value (execute self header cmd (Some buf) w)))).
  { destruct (execute_result self header cmd (Some buf) w)
      as [-> | (l0 & w2 & Hl0 & ->)]; [left; reflexivity |].
    rewrite <- Hl0. apply read_response_bounded. }
  destruct H as [-> | (m & got & Hm & -> & Hgot)].
  - exists buf. auto.
  - inversion Hm; subst m. exists (overwrite got buf).
    split; [reflexivity |]. split.
    + apply overwrite_length. lia.
    + unfold overwrite. rewrite skipn_app, skipn_skipn.
      rewrite (skipn_all2 got) by lia. cbn [app].
      f_equal. lia.
Qed.

Lemma execute_buffer_bound_witness :
  exists buf',
    snd (value (execute (mkJbdBms 10 4 true) (mkRequest 0 165 3 0) None
                  (Some (repeat 7 70))
                  (mkWorld 1000 995 ([221; 0; 64] ++ repeat 1 80) 100)))
    = Some buf'
    /\ List.length buf' = List.length (repeat 7 70)
    /\ skipn 64 buf' = skipn 64 (repeat 7 70).
Proof.
  apply (execute_buffer_bound (mkJbdBms 10 4 true) (mkRequest 0 165 3 0) None
           (repeat 7 70) (mkWorld 1000 995 ([221; 0; 64] ++ repeat 1 80) 100)).
  simpl; lia.
Defined.

(** ** Instances *)

Lemma getStatus_decodes_witness :
  let payload := [11; 184; 255; 156] ++ repeat 0 14 ++ [4] in
  let w := mkWorld 1000 995 ([221; 0; 19] ++ payload ++ [253; 139; 119]) 100 in
  let r := value (getStatus 165 3 (mkJbdBms 10 4 true)
                    (mkStatus 0 0 0 0 0 0 0 0 0 0 []) w) in
  fst r = true
  /\ voltage (snd r) = be16 payload 0
  /\ current (snd r) = signed16 (be16 payload 2)
  /\ remainingCapacity (snd r) = be16 payload 4
  /\ nominalCapacity (snd r) = be16 payload 6
  /\ cycles (snd r) = be16 payload 8
  /\ productionDate (snd r) = be16 payload 10
  /\ balanceLow (snd r) = be16 payload 12
  /\ balanceHigh (snd r) = be16 payload 14
  /\ fault (snd r) = be16 payload 16.
Proof.
  apply (getStatus_decodes 165 3 (mkJbdBms 10 4 true)
           (mkWorld 1000 995
              ([221; 0; 19] ++ ([11; 184; 255; 156] ++ repeat 0 14 ++ [4])
               ++ [253; 139; 119])
              100)
           19 ([11; 184; 255; 156] ++ repeat 0 14 ++ [4]) 253 139 119 []).
  - simpl; lia.
  - reflexivity.
  - reflexivity.
  - lia.
  - reflexivity.
  - repeat constructor; unfold is_byte; lia.
  - reflexivity.
  - simpl; lia.
Defined.

(** The wire bytes FF 9C in the place of [current] are the current -100. *)
Example getStatus_negative_current :
  current (snd (value (getStatus 165 3 (mkJbdBms 10 4 true)
                         (mkStatus 0 0 0 0 0 0 0 0 0 0 [])
                         (mkWorld 1000 995
                            ([221; 0; 19]
                             ++ ([11; 184; 255; 156] ++ repeat 0 14 ++ [4])
                             ++ [253; 139; 119]) 100))))
  = -100.
Proof. reflexivity. Qed.

Lemma getCells_decodes_witness :
  let payload := [14; 16; 14; 17] in
  let w := mkWorld 1000 995 ([221; 0; 4] ++ payload ++ [255; 191; 119]) 100 in
  let r := value (getCells 165 4 (mkJbdBms 10 4 true) (mkCells [0; 0]) w) in
  fst r = true /\ voltages (snd r) = be16_list payload.
Proof.
  apply (getCells_decodes 165 4 (mkJbdBms 10 4 true)
           (mkWorld 1000 995 ([221; 0; 4] ++ [14; 16; 14; 17] ++ [255; 191; 119])
              100)
           4 [14; 16; 14; 17] 255 191 119 []).
  - simpl; lia.
  - reflexivity.
  - reflexivity.
  - lia.
  - reflexivity.
  - repeat constructor; unfold is_byte; lia.
  - reflexivity.
  - discriminate.
  - reflexivity.
Defined.

Lemma getHardware_copies_witness :
  value (getHardware 165 5 (mkJbdBms 10 4 true) (repeat 0 8)
           (mkWorld 1000 995 ([221; 0; 3] ++ [74; 66; 68] ++ [255; 45; 119]) 100))
  = (true, [74; 66; 68] ++ skipn (List.length [74; 66; 68]) (repeat 0 8)).
Proof.
  apply (getHardware_copies 165 5 (mkJbdBms 10 4 true)
           (mkWorld 1000 995 ([221; 0; 3] ++ [74; 66; 68] ++ [255; 45; 119]) 100)
           3 [74; 66; 68] 255 45 119 []).
  - simpl; lia.
  - reflexivity.
  - reflexivity.
  - lia.
  - reflexivity.
  - repeat constructor; unfold is_byte; lia.
  - reflexivity.
  - simpl; lia.
Defined.

Lemma setMosfetStatus_acknowledged_witness :
  (value (setMosfetStatus 90 225 3 (mkJbdBms 10 4 true) 1
            (mkWorld 1000 995 [221; 0; 0; 0; 0; 119] 100)) = true
   <-> 221 = 221 /\ 0 = 0 /\ 0 = 0 /\ 0 = 0)
  /\ value (setMosfetStatus 90 225 3 (mkJbdBms 10 4 false) 1
              (mkWorld 1000 995 [221; 0; 2; 7; 7; 0; 0; 119] 100)) = false.
Proof.
  split.
  - apply (proj1 (setMosfetStatus_acknowledged 90 225 3 (mkJbdBms 10 4 true)
                    ltac:(unfold is_byte; lia) ltac:(unfold is_byte; lia) 1
                    (mkWorld 1000 995 [221; 0; 0; 0; 0; 119] 100)
                    221 0 0 0 119 []
                    ltac:(simpl; lia) ltac:(unfold is_byte; lia)
                    ltac:(unfold is_byte; lia))).
    reflexivity.
  - apply (proj2 (setMosfetStatus_acknowledged 90 225 3 (mkJbdBms 10 4 false)
                    ltac:(unfold is_byte; lia) ltac:(unfold is_byte; lia) 1
                    (mkWorld 1000 995 [221; 0; 2; 7; 7; 0; 0; 119] 100)
                    221 0 0 0 119 []
                    ltac:(simpl; lia) ltac:(unfold is_byte; lia)
                    ltac:(unfold is_byte; lia))
             221 0 2 [7; 7; 0; 0; 119]).
    + reflexivity.
    + lia.
    + reflexivity.
Defined.
